(** * promptbench/models/models.py: the model registry, the facade and its adapters

    A shallow embedding of [src/promptbench/models/models.py].

    - Keyword arguments ([**kwargs]) are a record of optional fields;
      [kwargs.get(k, d)] is [default d (field kw)].
    - Python exceptions are values of [exn]; a call that may raise returns an
      [outcome].  Every exception modelled here is an instance of Python's
      [Exception] class (what [except Exception] catches).
    - A number supplied as [temperature] or [sleep_time] is a finite number,
      modelled as a rational, or the float NaN, for which every comparison
      is false.  The infinities, which compare with 0 as large finite
      numbers do, are left out.  The sum of two finite numbers is their
      exact sum, where the addition of floats rounds: bounds on a sum are
      stated as they hold of the rounded sum too.
    - The libraries the module imports ([transformers], [openai], [random],
      [time], [utils]) are parameters: the loaders and the tokenizer and
      generation handles are functions that may raise; the remote service and
      the random source are oracles over the history of effects; [time.sleep]
      may raise; [print] and the calls of the remote service and of
      [time.sleep] are recorded in that history. *)

From Stdlib Require Import QArith.
From stdpp Require Import gmap strings list fin_maps.

Open Scope string_scope.

(** ** Exceptions and outcomes *)

Inductive exn : Type :=
| ValueError (msg : string)
| Warning (msg : string)
| AssertionError
| IndexError (msg : string)
| AttributeError (msg : string)
| LibraryError (cls msg : string).   (* raised inside an imported library *)

(** [str(e)], what [print(e)] writes. *)
Definition exn_str (e : exn) : string :=
  match e with
  | ValueError m | Warning m | IndexError m | AttributeError m => m
  | AssertionError => ""
  | LibraryError _ m => m
  end.

(** A call that touches no state returns a value or raises. *)
Inductive outcome (A : Type) : Type :=
| Ok (a : A)
| Raise (e : exn).
Arguments Ok {A} a.
Arguments Raise {A} e.

Definition obind {A B} (x : outcome A) (f : A -> outcome B) : outcome B :=
  match x with
  | Ok a => f a
  | Raise e => Raise e
  end.

Declare Scope py_scope.
Delimit Scope py_scope with py.
Notation "'let!' x ':=' c 'in' k" := (obind c (fun x => k))
  (at level 10, x pattern, c at level 100, k at level 200) : py_scope.

(** ** The registry: lines 5-35 *)

Definition T5_MODEL : string := "google/flan-t5-large".

Definition LLAMA_MODELS : list string :=
  [ "llama2-7b"; "llama2-7b-chat"; "llama2-13b"; "llama2-13b-chat";
    "llama2-70b"; "llama2-70b-chat" ].

Definition GPT_MODELS : list string := [ "gpt-3.5-turbo"; "gpt-4" ].

Definition VICUNA_MODELS : list string :=
  [ "vicuna-7b"; "vicuna-13b"; "vicuna-13b-v1.3" ].

Definition UL2_MODELS : list string := [ "google/flan-ul2" ].

Definition MODEL_LIST : gmap string (list string) :=
  <["t5" := [T5_MODEL]]>
  (<["llama" := LLAMA_MODELS]>
  (<["gpt" := GPT_MODELS]>
  (<["vicuna" := VICUNA_MODELS]>
  (<["ul2" := UL2_MODELS]> ∅)))).

(** ** Numbers *)

(** A Python number: a finite one (an int or a finite float), or the float
    NaN. *)
Inductive number : Type :=
| Finite (q : Q)
| NaN.

Coercion Finite : Q >-> number.

(** [x <= y], [x < y] and [x + y]: a comparison with NaN is false, a sum
    with NaN is NaN. *)
Definition number_le (x y : number) : Prop :=
  match x, y with
  | Finite a, Finite b => (a <= b)%Q
  | _, _ => False
  end.

Definition number_lt (x y : number) : Prop :=
  match x, y with
  | Finite a, Finite b => (a < b)%Q
  | _, _ => False
  end.

Definition number_add (x y : number) : number :=
  match x, y with
  | Finite a, Finite b => Finite (a + b)
  | _, _ => NaN
  end.

Declare Scope number_scope.
Delimit Scope number_scope with num.
Bind Scope number_scope with number.
Notation "x <= y" := (number_le x y) : number_scope.
Notation "x < y" := (number_lt x y) : number_scope.
Notation "x + y" := (number_add x y) : number_scope.

(** ** Keyword arguments *)

Record kwargs : Type := Kwargs {
  kw_model : option string;
  kw_max_new_tokens : option Z;
  kw_model_dir : option string;
  kw_openai_key : option string;
  kw_temperature : option number;
  kw_sleep_time : option number
}.

(** The keyword arguments [kw] with the entry for [model_dir] set to [dir],
    or removed for [None]. *)
Definition with_model_dir (dir : option string) (kw : kwargs) : kwargs :=
  {| kw_model := kw_model kw; kw_max_new_tokens := kw_max_new_tokens kw;
     kw_model_dir := dir; kw_openai_key := kw_openai_key kw;
     kw_temperature := kw_temperature kw;
     kw_sleep_time := kw_sleep_time kw |}.

(** Python truth value of an optional string: [None] and [''] are false. *)
Definition truthy (s : option string) : bool :=
  match s with
  | None => false
  | Some s => negb (String.eqb s "")
  end.

(** [x > 0] on a number. *)
Definition gt0 (x : number) : bool :=
  match x with
  | Finite q => if Qlt_le_dec 0 q then true else false
  | NaN => false
  end.

(** [m == s] and [m in l] for a value that is a string or [None]. *)
Definition py_eq (m : option string) (s : string) : bool :=
  match m with
  | None => false
  | Some x => String.eqb x s
  end.

Definition py_in (m : option string) (l : list string) : bool :=
  match m with
  | None => false
  | Some x => existsb (String.eqb x) l
  end.

(** The identifier [m] is one of the strings of [l]; [None] is in no list. *)
Definition one_of (m : option string) (l : list string) : Prop :=
  exists s, m = Some s /\ s ∈ l.

(** The family table, as the list of its entries. *)
Definition family_table : list (string * list string) :=
  [ ("t5", [T5_MODEL]); ("llama", LLAMA_MODELS); ("gpt", GPT_MODELS);
    ("vicuna", VICUNA_MODELS); ("ul2", UL2_MODELS) ].

(** ** The imported libraries *)

(** Token ids: a sequence is one row, a tensor a batch of rows. *)
Definition Sequence : Type := list Z.
Definition Tensor : Type := list Sequence.

(** A loaded tokenizer: [tokenizer(text, return_tensors="pt").input_ids],
    [tokenizer.decode(seq)] and [tokenizer.batch_decode(batch,
    skip_special_tokens=True, clean_up_tokenization_spaces=False)]. *)
Record Tokenizer : Type := {
  input_ids : string -> outcome Tensor;
  decode : Sequence -> outcome string;
  batch_decode : Tensor -> outcome (list string)
}.

(** A loaded model: [pipe.generate(input_ids, max_new_tokens=n)]. *)
Record Pipe : Type := {
  generate : Tensor -> Z -> outcome Tensor
}.

Inductive tokenizer_class : Type :=
| T5Tokenizer
| AutoTokenizer
| AutoTokenizer_slow      (* AutoTokenizer with use_fast=False *)
| LlamaTokenizer.

Inductive pipe_class : Type :=
| T5ForConditionalGeneration
| LlamaForCausalLM
| AutoModelForCausalLM.

(** The chat service: the request [openai.ChatCompletion.create] sends and
    the part of the response the module reads,
    [response['choices'][0]['message']['content']]. *)
Record message : Type := { role : string; content : string }.

Record request : Type := {
  req_model : option string;
  req_messages : list message;
  req_temperature : number
}.

Record response : Type := { choices : list message }.

(** ** Effects *)

Inductive event : Type :=
| EPredict (input_text : string)                  (* a call of [self.predict] *)
| EChat (api_key : option string) (req : request) (* a call of the chat service *)
| EPrint (line : string)                          (* [print] *)
| ESleep (seconds : number).                      (* a call of [time.sleep] *)

(** The state outside the objects: the module global [openai.api_key] and
    the history of effects, oldest first. *)
Record world : Type := {
  openai_api_key : option string;
  trace : list event
}.

(** How a call that has effects ends: it returns, it raises, or, in the
    model only, a [while] loop has used up the bound it was given
    ([OutOfFuel] is no Python exception and no [except] clause catches it). *)
Inductive ending (A : Type) : Type :=
| Returns (a : A)
| Raises (e : exn)
| OutOfFuel.
Arguments Returns {A} a.
Arguments Raises {A} e.
Arguments OutOfFuel {A}.

Definition to_ending {A} (x : outcome A) : ending A :=
  match x with
  | Ok a => Returns a
  | Raise e => Raises e
  end.

Definition M (A : Type) : Type := world -> ending A * world.

Definition mret {A} (a : A) : M A := fun w => (Returns a, w).

Definition mbind {A B} (c : M A) (k : A -> M B) : M B :=
  fun w =>
    match c w with
    | (Returns a, w') => k a w'
    | (Raises e, w') => (Raises e, w')
    | (OutOfFuel, w') => (OutOfFuel, w')
    end.

Notation "'let*' x ':=' c 'in' k" := (mbind c (fun x => k))
  (at level 10, x pattern, c at level 100, k at level 200) : py_scope.

Definition lift {A} (x : outcome A) : M A := fun w => (to_ending x, w).

Definition emit (e : event) : M unit :=
  fun w => (Returns tt, {| openai_api_key := openai_api_key w;
                      trace := trace w ++ [e] |}).

Definition set_api_key (k : option string) : M unit :=
  fun w => (Returns tt, {| openai_api_key := k; trace := trace w |}).

(** [try: body  except Exception as e: handler(e)]. *)
Definition try_except {A} (body : M A) (handler : exn -> M A) : M A :=
  fun w =>
    match body w with
    | (Raises e, w') => handler e w'
    | r => r
    end.

(** [while True: body].  The body ends an iteration by falling through
    ([Continue]), by [return] ([Return]) or by raising. *)
Inductive ctl (A : Type) : Type :=
| Continue
| Return (a : A).
Arguments Continue {A}.
Arguments Return {A} a.

Fixpoint while_true {A} (fuel : nat) (body : M (ctl A)) : M A :=
  match fuel with
  | O => fun w => (OutOfFuel, w)
  | S fuel' =>
      fun w =>
        match body w with
        | (Returns (Return a), w') => (Returns a, w')
        | (Returns Continue, w') => while_true fuel' body w'
        | (Raises e, w') => (Raises e, w')
        | (OutOfFuel, w') => (OutOfFuel, w')
        end
  end.

(** [l[0]] on a Python list. *)
Definition item0 {A} (l : list A) : outcome A :=
  match l with
  | x :: _ => Ok x
  | [] => Raise (IndexError "list index out of range")
  end.

(** [t[0]] on a tensor: the first row of the batch; torch raises its own
    [IndexError] on a batch without rows. *)
Definition tensor0 (t : Tensor) : outcome Sequence :=
  match t with
  | x :: _ => Ok x
  | [] =>
      Raise (IndexError "index 0 is out of bounds for dimension 0 with size 0")
  end.

(** The texts [predict] was called on, in a history. *)
Definition is_predict (e : event) : option string :=
  match e with EPredict t => Some t | _ => None end.

Definition predicted (h : list event) : list string := omap is_predict h.

(** The calls of the chat service and of [time.sleep], in a history. *)
Definition is_chat (e : event) : bool :=
  match e with EChat _ _ => true | _ => false end.

Definition is_sleep (e : event) : bool :=
  match e with ESleep _ => true | _ => false end.

Definition count_events (p : event -> bool) (h : list event) : nat :=
  length (List.filter p h).

(** A computation is quiet when it adds no call of [predict] to the
    history, however it ends. *)
Definition quiet {A} (c : M A) : Prop :=
  forall w, predicted (trace (snd (c w))) = predicted (trace w).

(** ** The classes *)

(** What the module imports.  [transformers]: the [from_pretrained] loaders
    and [tensor.to("cuda")].  [openai] and [random]: the chat call, given the
    history so far and the module's [api_key], and [random.random()], given
    the history so far.  [time]: [time.sleep], which returns or raises (in
    Python it rejects a negative duration).  [utils]: datasets, prompts and
    the three helpers [predict_dataset] imports. *)
Class Libraries : Type := {
  Tokenizer_from_pretrained :
    tokenizer_class -> option string -> outcome Tokenizer;
  Pipe_from_pretrained : pipe_class -> option string -> outcome Pipe;
  to_cuda : Tensor -> outcome Tensor;
  ChatCompletion_create :
    list event -> option string -> request -> outcome response;
  random_random : list event -> Q;
  time_sleep : number -> outcome unit;
  Dataset : Type;
  Prompt : Type;
  Labels : Type;
  Preds : Type;
  Score : Type;
  dataset_name : Dataset -> string;
  process_input : Prompt -> Dataset -> outcome (list string * Labels);
  process_pred : string -> list (option string) -> outcome Preds;
  eval : Dataset -> Preds -> Labels -> outcome Score
}.

Section Models.

Context {L : Libraries}.

Local Open Scope py_scope.

(** *** LMMBaseModel: lines 38-66 *)

Record LMMBaseModel : Type := {
  raw_dataset : option Dataset;
  model : option string;
  max_new_tokens : Z
}.

Definition LMMBaseModel_init (kw : kwargs) : LMMBaseModel :=
  {| raw_dataset := None;
     model := kw_model kw;
     max_new_tokens := default 20%Z (kw_max_new_tokens kw) |}.

(** The objects of the four local classes hold a tokenizer and a model;
    those of the remote class hold the credential and two numbers. *)
Record LocalModel : Type := {
  lm_base : LMMBaseModel;
  tokenizer : Tokenizer;
  pipe : Pipe
}.

Record RemoteModel : Type := {
  rm_base : LMMBaseModel;
  openai_key : option string;
  temperature : number;
  sleep_time : number
}.

Inductive adapter : Type :=
| T5Model (self : LocalModel)
| UL2Model (self : LocalModel)
| LlamaModel (self : LocalModel)
| VicunaModel (self : LocalModel)
| OpenAIModel (self : RemoteModel).

Inductive adapter_class : Type :=
| ClassT5 | ClassUL2 | ClassLlama | ClassVicuna | ClassOpenAI.

Definition class_of (a : adapter) : adapter_class :=
  match a with
  | T5Model _ => ClassT5
  | UL2Model _ => ClassUL2
  | LlamaModel _ => ClassLlama
  | VicunaModel _ => ClassVicuna
  | OpenAIModel _ => ClassOpenAI
  end.

Definition base (a : adapter) : LMMBaseModel :=
  match a with
  | T5Model s | UL2Model s | LlamaModel s | VicunaModel s => lm_base s
  | OpenAIModel s => rm_base s
  end.

Definition with_base (f : LMMBaseModel -> LMMBaseModel) (a : adapter)
  : adapter :=
  let local s :=
    {| lm_base := f (lm_base s); tokenizer := tokenizer s; pipe := pipe s |} in
  match a with
  | T5Model s => T5Model (local s)
  | UL2Model s => UL2Model (local s)
  | LlamaModel s => LlamaModel (local s)
  | VicunaModel s => VicunaModel (local s)
  | OpenAIModel s =>
      OpenAIModel {| rm_base := f (rm_base s);
                     openai_key := openai_key s;
                     temperature := temperature s;
                     sleep_time := sleep_time s |}
  end.

(** [self.raw_dataset = raw_dataset] *)
Definition set_raw_dataset (self : adapter) (rd : option Dataset) : adapter :=
  with_base (fun b => {| raw_dataset := rd;
                         model := model b;
                         max_new_tokens := max_new_tokens b |}) self.

(** *** T5Model: lines 97-114 *)

Definition T5Model_init (kw : kwargs) : outcome adapter :=
  let b := LMMBaseModel_init kw in
  let! tok := Tokenizer_from_pretrained T5Tokenizer (model b) in
  let! p := Pipe_from_pretrained T5ForConditionalGeneration (model b) in
  Ok (T5Model {| lm_base := b; tokenizer := tok; pipe := p |}).

Definition T5Model_predict (self : LocalModel) (input_text : string)
  : outcome string :=
  let! ids := input_ids (tokenizer self) input_text in
  let! ids := to_cuda ids in
  let! outputs := generate (pipe self) ids (max_new_tokens (lm_base self)) in
  let! first := tensor0 outputs in
  let! out := decode (tokenizer self) first in
  Ok out.

(** *** UL2Model: lines 117-134 *)

Definition UL2Model_init (kw : kwargs) : outcome adapter :=
  let b := LMMBaseModel_init kw in
  let! tok := Tokenizer_from_pretrained AutoTokenizer (model b) in
  let! p := Pipe_from_pretrained T5ForConditionalGeneration (model b) in
  Ok (UL2Model {| lm_base := b; tokenizer := tok; pipe := p |}).

Definition UL2Model_predict (self : LocalModel) (input_text : string)
  : outcome string :=
  let! ids := input_ids (tokenizer self) input_text in
  let! ids := to_cuda ids in
  let! outputs := generate (pipe self) ids (max_new_tokens (lm_base self)) in
  let! first := tensor0 outputs in
  let! out := decode (tokenizer self) first in
  Ok out.

(** *** LlamaModel: lines 137-159 *)

Definition LlamaModel_init (kw : kwargs) : outcome adapter :=
  let b := LMMBaseModel_init kw in
  let model_dir := kw_model_dir kw in
  if negb (truthy model_dir) then
    Raise (ValueError "model_dir is required for llama model!")
  else
    let! tok := Tokenizer_from_pretrained LlamaTokenizer model_dir in
    let! p := Pipe_from_pretrained LlamaForCausalLM model_dir in
    Ok (LlamaModel {| lm_base := b; tokenizer := tok; pipe := p |}).

Definition LlamaModel_predict (self : LocalModel) (input_text : string)
  : outcome string :=
  let! ids := input_ids (tokenizer self) input_text in
  let! ids := to_cuda ids in
  let! generate_ids :=
    generate (pipe self) ids (max_new_tokens (lm_base self)) in
  let! texts := batch_decode (tokenizer self) generate_ids in
  let! out := item0 texts in
  Ok out.

(** *** VicunaModel: lines 162-183 *)

Definition VicunaModel_init (kw : kwargs) : outcome adapter :=
  let b := LMMBaseModel_init kw in
  let model_dir := kw_model_dir kw in
  if negb (truthy model_dir) then
    Raise (ValueError "model_dir is required for llama model!")
  else
    let! tok := Tokenizer_from_pretrained AutoTokenizer_slow model_dir in
    let! p := Pipe_from_pretrained AutoModelForCausalLM model_dir in
    Ok (VicunaModel {| lm_base := b; tokenizer := tok; pipe := p |}).

Definition VicunaModel_predict (self : LocalModel) (input_text : string)
  : outcome string :=
  let! ids := input_ids (tokenizer self) input_text in
  let! ids := to_cuda ids in
  let! outputs := generate (pipe self) ids (max_new_tokens (lm_base self)) in
  let! first := tensor0 outputs in
  let! out := decode (tokenizer self) first in
  Ok out.

(** *** OpenAIModel: lines 186-226 *)

Definition temperature_message : string :=
  "Temperature is not 0, so that the results may not be reproducable!".

Definition sleep_time_message : string :=
  "We suggest to set sleep time > 0 (i.e., 5).".

Definition OpenAIModel_init (kw : kwargs) : outcome adapter :=
  let b := LMMBaseModel_init kw in
  let self :=
    {| rm_base := b;
       openai_key := kw_openai_key kw;
       temperature := default (Finite 0%Q) (kw_temperature kw);
       sleep_time := default (Finite 3%Q) (kw_sleep_time kw) |} in
  if negb (truthy (openai_key self)) then
    Raise (ValueError "openai_key is required for openai model!")
  else if gt0 (temperature self) then
    Raise (Warning temperature_message)
  else if gt0 (sleep_time self) then
    Raise (Warning sleep_time_message)
  else
    Ok (OpenAIModel self).

(** [time.sleep(seconds + random.random())] *)
Definition OpenAIModel_sleep (self : RemoteModel) (seconds : number)
  : M unit :=
  fun w =>
    let duration := (seconds + Finite (random_random (trace w)))%num in
    (let* _ := emit (ESleep duration) in lift (time_sleep duration)) w.

Definition chat_create (req : request) : M response :=
  fun w =>
    (to_ending (ChatCompletion_create (trace w) (openai_api_key w) req),
     {| openai_api_key := openai_api_key w;
        trace := trace w ++ [EChat (openai_api_key w) req] |}).

(** One pass of the body of [while True]: it returns or raises. *)
Definition OpenAIModel_predict_body (self : RemoteModel) (input_text : string)
  : M (ctl (option string)) :=
  let* resp :=
    chat_create {| req_model := model (rm_base self);
                   req_messages := [ {| role := "user";
                                        content := input_text |} ];
                   req_temperature := temperature self |} in
  let* choice := lift (item0 (choices resp)) in
  let result := content choice in
  mret (Return (Some result)).

(** The function ends after the [except] block without a [return]: the
    call then evaluates to [None]. *)
Definition OpenAIModel_predict (fuel : nat) (self : RemoteModel)
    (input_text : string) : M (option string) :=
  let* _ := set_api_key (openai_key self) in
  try_except
    (while_true fuel (OpenAIModel_predict_body self input_text))
    (fun e =>
       let* _ := emit (EPrint (exn_str e)) in
       let* _ := emit (EPrint "Retrying...") in
       let* _ := OpenAIModel_sleep self (sleep_time self) in
       mret None).

(** *** Method dispatch, and the rest of LMMBaseModel *)

(** [self.predict(input_text)]: the call is recorded, then the body of the
    object's class runs. *)
Definition predict (fuel : nat) (self : adapter) (input_text : string)
  : M (option string) :=
  let* _ := emit (EPredict input_text) in
  match self with
  | T5Model s =>
      let* out := lift (T5Model_predict s input_text) in mret (Some out)
  | UL2Model s =>
      let* out := lift (UL2Model_predict s input_text) in mret (Some out)
  | LlamaModel s =>
      let* out := lift (LlamaModel_predict s input_text) in mret (Some out)
  | VicunaModel s =>
      let* out := lift (VicunaModel_predict s input_text) in mret (Some out)
  | OpenAIModel s => OpenAIModel_predict fuel s input_text
  end.

(** [__call__] *)
Definition LMMBaseModel_call (fuel : nat) (self : adapter)
    (input_text : string) : M (option string) :=
  predict fuel self input_text.

(** The [for] loop of [predict_dataset]. *)
Fixpoint predict_loop (fuel : nat) (self : adapter)
    (input_texts : list string) (raw_preds : list (option string))
  : M (list (option string)) :=
  match input_texts with
  | [] => mret raw_preds
  | input_text :: rest =>
      let* p := predict fuel self input_text in
      predict_loop fuel self rest (raw_preds ++ [p])
  end.

Definition predict_dataset (fuel : nat) (self : adapter) (prompt : Prompt)
  : M Score :=
  match raw_dataset (base self) with
  | None => lift (Raise AssertionError)
  | Some ds =>
      let* (input_texts, labels) := lift (process_input prompt ds) in
      let* raw_preds := predict_loop fuel self input_texts [] in
      let* preds := lift (process_pred (dataset_name ds) raw_preds) in
      let* score := lift (eval ds preds labels) in
      mret score
  end.

(** *** LLMModel: lines 69-94 *)

Record LLMModel : Type := {
  facade_model : option string;
  infer_model : adapter
}.

Definition unsupported_message : string := "The model is not supported!".

Definition create_model (self_model : option string) (kw : kwargs)
  : outcome adapter :=
  if py_eq self_model "google/flan-t5-large" then T5Model_init kw
  else if py_in self_model LLAMA_MODELS then LlamaModel_init kw
  else if py_in self_model GPT_MODELS then OpenAIModel_init kw
  else if py_in self_model VICUNA_MODELS then VicunaModel_init kw
  else if py_in self_model UL2_MODELS then UL2Model_init kw
  else Raise (ValueError unsupported_message).

Definition LLMModel_init (kw : kwargs) : outcome LLMModel :=
  let m := kw_model kw in
  let! a := create_model m kw in
  Ok {| facade_model := m; infer_model := a |}.

Definition model_list (_ : unit) : gmap string (list string) := MODEL_LIST.

Definition LLMModel_call (fuel : nat) (self : LLMModel) (input_text : string)
  : M (option string) :=
  predict fuel (infer_model self) input_text.

(** [create_model], called with the identifier [m], hands the keyword
    arguments to the constructor [init], and an object it returns has class
    [c]; and [LLMModel.__init__], called with that identifier among the
    keyword arguments, ends as [init] does: it raises what [init] raises,
    and otherwise returns the facade that holds the identifier and the
    object [init] returned. *)
Definition selects (m : option string) (kw : kwargs)
    (init : kwargs -> outcome adapter) (c : adapter_class) : Prop :=
  create_model m kw = init kw /\
  (forall a, create_model m kw = Ok a -> class_of a = c) /\
  (kw_model kw = m ->
     LLMModel_init kw =
       match init kw with
       | Ok a => Ok {| facade_model := m; infer_model := a |}
       | Raise e => Raise e
       end) /\
  (kw_model kw = m ->
     forall f, LLMModel_init kw = Ok f ->
       facade_model f = m /\
       init kw = Ok (infer_model f) /\
       class_of (infer_model f) = c).

(** *** The methods a caller can invoke on an adapter *)

(** [type(self).__name__] *)
Definition class_name (c : adapter_class) : string :=
  match c with
  | ClassT5 => "T5Model"
  | ClassUL2 => "UL2Model"
  | ClassLlama => "LlamaModel"
  | ClassVicuna => "VicunaModel"
  | ClassOpenAI => "OpenAIModel"
  end.

Inductive method : Type :=
| Call_predict (input_text : string)
| Call_call (input_text : string)
| Call_set_raw_dataset (rd : option Dataset)
| Call_predict_dataset (prompt : Prompt)
| Call_sleep (seconds : number).

Inductive retval : Type :=
| RNone
| RText (out : option string)
| RScore (score : Score).

Definition returning {A} (f : A -> retval) (self : adapter)
    (r : ending A * world) : ending retval * adapter * world :=
  (match fst r with
   | Returns a => Returns (f a)
   | Raises e => Raises e
   | OutOfFuel => OutOfFuel
   end, self, snd r).

(** One method call on the object [self]: what it returns or raises, and
    the object and the world after it. *)
Definition invoke (fuel : nat) (m : method) (self : adapter) (w : world)
  : ending retval * adapter * world :=
  match m with
  | Call_predict t => returning RText self (predict fuel self t w)
  | Call_call t => returning RText self (LMMBaseModel_call fuel self t w)
  | Call_set_raw_dataset rd => (Returns RNone, set_raw_dataset self rd, w)
  | Call_predict_dataset p =>
      returning RScore self (predict_dataset fuel self p w)
  | Call_sleep seconds =>
      match self with
      | OpenAIModel s =>
          returning (fun _ => RNone) self (OpenAIModel_sleep s seconds w)
      | _ =>
          (Raises (AttributeError
                     ("'" ++ class_name (class_of self)
                        ++ "' object has no attribute 'sleep'")),
           self, w)
      end
  end.

(** A caller's sequence of method calls, going on after a call that raised. *)
Fixpoint invoke_all (fuel : nat) (ms : list method) (self : adapter)
    (w : world) : adapter * world :=
  match ms with
  | [] => (self, w)
  | m :: rest =>
      let '(_, self', w') := invoke fuel m self w in
      invoke_all fuel rest self' w'
  end.

End Models.

(** ** A concrete set of libraries, to run the model on *)

Module Stub.

(** A tokenizer that encodes a text as its length and decodes a sequence as
    a fixed word, and a model that returns its input. *)
Definition tok : Tokenizer :=
  {| input_ids := fun s => Ok [[Z.of_nat (String.length s)]];
     decode := fun _ => Ok "ok";
     batch_decode := fun b => Ok (map (fun _ => "ok") b) |}.

Definition echo : Pipe := {| generate := fun ids _ => Ok ids |}.

(** A model whose [generate] raises. *)
Definition broken : Pipe :=
  {| generate := fun _ _ => Raise (LibraryError "RuntimeError" "CUDA error") |}.

Definition text_of (req : request) : string :=
  match req_messages req with
  | m :: _ => content m
  | [] => ""
  end.

(** A chat service that raises on the text ["down"] and answers any other
    text with itself. *)
Definition chat (h : list event) (key : option string) (req : request)
  : outcome response :=
  if String.eqb (text_of req) "down" then
    Raise (LibraryError "APIError" "service unavailable")
  else
    Ok {| choices := [ {| role := "assistant"; content := text_of req |} ] |}.

(** The libraries; [random.random()] is always 1/2, [time.sleep] rejects a
    negative duration and NaN, the dataset is a list of (input, label) pairs, the
    score the number of predictions equal to their label. *)
Definition libs (p : Pipe) : Libraries :=
  {| Tokenizer_from_pretrained := fun _ _ => Ok tok;
     Pipe_from_pretrained := fun _ _ => Ok p;
     to_cuda := fun t => Ok t;
     ChatCompletion_create := chat;
     random_random := fun _ => (1 # 2)%Q;
     time_sleep := fun d =>
       match d with
       | Finite q =>
           if Qle_bool 0 q then Ok tt
           else Raise (ValueError "sleep length must be non-negative")
       | NaN => Raise (ValueError "Invalid value NaN (not a number)")
       end;
     Dataset := list (string * string);
     Prompt := string;
     Labels := list string;
     Preds := list string;
     Score := nat;
     dataset_name := fun _ => "sst2";
     process_input := fun prompt ds =>
       Ok (map (fun x => prompt ++ fst x) ds, map snd ds);
     process_pred := fun _ raw => Ok (map (default "") raw);
     eval := fun _ preds labels =>
       Ok (length (List.filter (fun x => String.eqb (fst x) (snd x))
                     (combine preds labels))) |}.

Definition no_kwargs : kwargs :=
  {| kw_model := None; kw_max_new_tokens := None; kw_model_dir := None;
     kw_openai_key := None; kw_temperature := None; kw_sleep_time := None |}.

Definition w0 : world := {| openai_api_key := None; trace := [] |}.

(** Keyword arguments used in the examples below. *)
Definition remote (temp sleep : option Q) : kwargs :=
  {| kw_model := Some "gpt-4"; kw_max_new_tokens := None;
     kw_model_dir := None; kw_openai_key := Some "sk-test";
     kw_temperature := Finite <$> temp; kw_sleep_time := Finite <$> sleep |}.

(** A remote configuration whose temperature is NaN, with a retry delay
    of 0. *)
Definition remote_nan : kwargs :=
  {| kw_model := Some "gpt-4"; kw_max_new_tokens := None;
     kw_model_dir := None; kw_openai_key := Some "sk-test";
     kw_temperature := Some NaN; kw_sleep_time := Some (Finite 0%Q) |}.

Definition local (m : string) (dir : option string) : kwargs :=
  {| kw_model := Some m; kw_max_new_tokens := None;
     kw_model_dir := dir; kw_openai_key := None;
     kw_temperature := None; kw_sleep_time := None |}.

(** A remote adapter as the constructor builds it for a retry delay of 0. *)
Definition remote0 : RemoteModel (L := libs echo) :=
  {| rm_base := LMMBaseModel_init (L := libs echo) (remote None (Some 0%Q));
     openai_key := Some "sk-test";
     temperature := 0%Q;
     sleep_time := 0%Q |}.

Definition request_for (input_text : string) : request :=
  {| req_model := Some "gpt-4";
     req_messages := [ {| role := "user"; content := input_text |} ];
     req_temperature := 0%Q |}.

Definition two_rows : list (string * string) := [ ("a", "a"); ("down", "x") ].

Definition local_with (m : string) : LocalModel (L := libs echo) :=
  {| lm_base := LMMBaseModel_init (L := libs echo) (local m None);
     tokenizer := tok;
     pipe := echo |}.

(** A remote adapter with a retry delay of -1. *)
Definition remote_neg : RemoteModel (L := libs echo) :=
  {| rm_base := LMMBaseModel_init (L := libs echo)
                  (remote None (Some (-1)%Q));
     openai_key := Some "sk-test";
     temperature := 0%Q;
     sleep_time := (-1)%Q |}.

(** A T5 adapter whose model raises. *)
Definition t5_broken : adapter (L := libs broken) :=
  T5Model {| lm_base := LMMBaseModel_init (L := libs broken)
                          (local "google/flan-t5-large" None);
             tokenizer := tok;
             pipe := broken |}.

End Stub.

(** ** The command-line entry and the vocabulary of the further properties *)

Section Entry.

Context {L : Libraries}.

Local Open Scope py_scope.

(** The constructor of each class. *)
Definition constructor (c : adapter_class) : kwargs -> outcome adapter :=
  match c with
  | ClassT5 => T5Model_init
  | ClassUL2 => UL2Model_init
  | ClassLlama => LlamaModel_init
  | ClassVicuna => VicunaModel_init
  | ClassOpenAI => OpenAIModel_init
  end.

(** The key of [MODEL_LIST] whose list [create_model] tests for a class. *)
Definition family_of_class (c : adapter_class) : string :=
  match c with
  | ClassT5 => "t5"
  | ClassUL2 => "ul2"
  | ClassLlama => "llama"
  | ClassVicuna => "vicuna"
  | ClassOpenAI => "gpt"
  end.

(** The body of [predict] of a local object, which reads no state; the
    remote class has none. *)
Definition local_predict (self : adapter) (input_text : string)
  : option (outcome string) :=
  match self with
  | T5Model s => Some (T5Model_predict s input_text)
  | UL2Model s => Some (UL2Model_predict s input_text)
  | LlamaModel s => Some (LlamaModel_predict s input_text)
  | VicunaModel s => Some (VicunaModel_predict s input_text)
  | OpenAIModel _ => None
  end.

(** The request the remote [predict] sends for a text. *)
Definition request_of (self : RemoteModel) (input_text : string) : request :=
  {| req_model := model (rm_base self);
     req_messages := [ {| role := "user"; content := input_text |} ];
     req_temperature := temperature self |}.

(** The world after the [except] block of the remote [predict], entered
    from the history [h], and how the block ends. *)
Definition after_except (self : RemoteModel) (e : exn) (h : list event)
  : ending (option string) * world :=
  let h' := (h ++ [ EPrint (exn_str e); EPrint "Retrying..." ])%list in
  let d := (sleep_time self + Finite (random_random h'))%num in
  (match time_sleep d with
   | Ok _ => Returns None
   | Raise e' => Raises e'
   end,
   {| openai_api_key := openai_key self;
      trace := (h' ++ [ESleep d])%list |}).

(** What the chat service answers to the request for a text, made in the
    history [h], as the remote [predict] reads it: the content of the first
    choice, or nothing when the call raises or the response has no
    choice. *)
Definition remote_answer (self : RemoteModel) (input_text : string)
    (h : list event) : option string :=
  match ChatCompletion_create h (openai_key self)
          (request_of self input_text) with
  | Ok {| choices := c :: _ |} => Some (content c)
  | _ => None
  end.

(** The answers to the requests for a list of texts, each made in the
    world the calls of [predict] before it have left. *)
Fixpoint remote_predictions (fuel : nat) (self : RemoteModel)
    (input_texts : list string) (w : world) : list (option string) :=
  match input_texts with
  | [] => []
  | t :: rest =>
      remote_answer self t (trace w ++ [EPredict t])%list
        :: remote_predictions fuel self rest
             (snd (predict fuel (OpenAIModel self) t w))
  end.

(** How the calls of [predict] on a list of texts end, one after the
    other, each in the world the call before it has left. *)
Fixpoint predict_endings (fuel : nat) (self : adapter)
    (input_texts : list string) (w : world)
  : list (ending (option string)) :=
  match input_texts with
  | [] => []
  | t :: rest =>
      fst (predict fuel self t w)
        :: predict_endings fuel self rest (snd (predict fuel self t w))
  end.

(** The world the calls of [predict] on a list of texts leave, one after
    the other. *)
Fixpoint predict_world (fuel : nat) (self : adapter)
    (input_texts : list string) (w : world) : world :=
  match input_texts with
  | [] => w
  | t :: rest => predict_world fuel self rest (snd (predict fuel self t w))
  end.

(** *** [if __name__ == '__main__']: lines 229-239 *)

(** The three command-line options, each given or left out. *)
Record argv : Type := {
  arg_model : option string;
  arg_max_new_tokens : option Z;
  arg_model_dir : option string
}.

(** [parser.parse_args()] with the defaults of lines 232-234, as the keyword
    arguments line 237 passes to [LLMModel]. *)
Definition parse_args (a : argv) : kwargs :=
  {| kw_model := Some (default "llama2-13b-chat" (arg_model a));
     kw_max_new_tokens := Some (default 20%Z (arg_max_new_tokens a));
     kw_model_dir :=
       Some (default "/media/Auriga/llms/llama2-13b-chat" (arg_model_dir a));
     kw_openai_key := None;
     kw_temperature := None;
     kw_sleep_time := None |}.

(** What [print] writes for a string or [None]. *)
Definition py_str (v : option string) : string :=
  match v with
  | Some s => s
  | None => "None"
  end.

Definition demo_sentence : string :=
  "The quick brown fox jumps over the lazy dog".

Definition main (fuel : nat) (a : argv) : M unit :=
  let* m := lift (LLMModel_init (parse_args a)) in
  let* out := LLMModel_call fuel m demo_sentence in
  emit (EPrint (py_str out)).

End Entry.

(** Further objects on the stub libraries. *)
Module StubMore.

(** A model that generates nothing. *)
Definition silent : Pipe := {| generate := fun _ _ => Ok [] |}.

(** A remote adapter with another credential and a retry delay of 0. *)
Definition remote1 : RemoteModel (L := Stub.libs Stub.echo) :=
  {| rm_base := LMMBaseModel_init (L := Stub.libs Stub.echo)
                  (Stub.remote None (Some 0%Q));
     openai_key := Some "sk-other";
     temperature := 0%Q;
     sleep_time := 0%Q |}.

(** A model that raises on a text of four characters. *)
Definition picky : Pipe :=
  {| generate := fun ids _ =>
       match ids with
       | [[4%Z]] => Raise (LibraryError "RuntimeError" "CUDA error")
       | _ => Ok ids
       end |}.

Definition local_on (p : Pipe) : LocalModel (L := Stub.libs Stub.echo) :=
  {| lm_base :=
       @Build_LMMBaseModel (Stub.libs Stub.echo)
         (Some [ ("a", "a"); ("bb", "b"); ("c", "c") ])
         (Some "google/flan-t5-large") 20;
     tokenizer := Stub.tok;
     pipe := p |}.

(** The remote adapter of [Stub.remote0] with a dataset attached. *)
Definition remote_scoring : RemoteModel (L := Stub.libs Stub.echo) :=
  {| rm_base := @Build_LMMBaseModel (Stub.libs Stub.echo)
                  (Some Stub.two_rows) (Some "gpt-4") 20;
     openai_key := Some "sk-test";
     temperature := 0%Q;
     sleep_time := 0%Q |}.

(** The stub libraries with a chat service that answers without a choice. *)
Definition mute_libs : Libraries :=
  {| Tokenizer_from_pretrained := fun _ _ => Ok Stub.tok;
     Pipe_from_pretrained := fun _ _ => Ok Stub.echo;
     to_cuda := fun t => Ok t;
     ChatCompletion_create := fun _ _ _ => Ok {| choices := [] |};
     random_random := fun _ => (1 # 2)%Q;
     time_sleep := fun d =>
       match d with
       | Finite q =>
           if Qle_bool 0 q then Ok tt
           else Raise (ValueError "sleep length must be non-negative")
       | NaN => Raise (ValueError "Invalid value NaN (not a number)")
       end;
     Dataset := list (string * string);
     Prompt := string;
     Labels := list string;
     Preds := list string;
     Score := nat;
     dataset_name := fun _ => "sst2";
     process_input := fun prompt ds =>
       Ok (map (fun x => prompt ++ fst x) ds, map snd ds);
     process_pred := fun _ raw => Ok (map (default "") raw);
     eval := fun _ preds labels => Ok (length preds) |}.

Definition remote_mute : RemoteModel (L := mute_libs) :=
  {| rm_base := @Build_LMMBaseModel mute_libs None (Some "gpt-4") 20;
     openai_key := Some "sk-test";
     temperature := 0%Q;
     sleep_time := 0%Q |}.

Definition no_args : argv :=
  {| arg_model := None; arg_max_new_tokens := None; arg_model_dir := None |}.

Definition gpt_args : argv :=
  {| arg_model := Some "gpt-4"; arg_max_new_tokens := None;
     arg_model_dir := None |}.

End StubMore.

(** * Properties *)

Open Scope list_scope.

(** ** The small functions on values *)

Example gt0_default_sleep : gt0 3%Q = true.
Proof. reflexivity. Qed.

Example gt0_zero : gt0 0%Q = false.
Proof. reflexivity. Qed.

Example gt0_nan : gt0 NaN = false.
Proof. reflexivity. Qed.

Example py_in_gpt4 : py_in (Some "gpt-4") GPT_MODELS = true.
Proof. reflexivity. Qed.

Example py_in_None : py_in None GPT_MODELS = false.
Proof. reflexivity. Qed.

Lemma gt0_true (x : number) : gt0 x = true <-> (0%Q < x)%num.
Proof.
  destruct x as [q |]; simpl; [| done].
  destruct (Qlt_le_dec 0 q) as [Hlt | Hle]; split; intros H; try done.
  exfalso. exact (Qle_not_lt _ _ Hle H).
Qed.

(** [x > 0] is false of the numbers that are at most 0, and of NaN. *)
Lemma gt0_false (x : number) :
  gt0 x = false <-> (x <= 0%Q)%num \/ x = NaN.
Proof.
  destruct x as [q |]; simpl; [| split; [by right | done]].
  destruct (Qlt_le_dec 0 q) as [Hlt | Hle]; split; intros H; try done.
  - destruct H as [H | H]; [| done].
    exfalso. exact (Qle_not_lt _ _ H Hlt).
  - by left.
Qed.

(** NaN is in no order with a number. *)
Lemma NaN_unordered (x : number) :
  ~ (NaN <= x)%num /\ ~ (x <= NaN)%num /\ ~ (NaN < x)%num /\ ~ (x < NaN)%num.
Proof. destruct x; repeat split; intros []. Qed.

(** A sum with a finite number that is not negative is not smaller. *)
Lemma number_le_add (x : number) (r : Q) :
  (0%Q <= x)%num -> (0 <= r)%Q -> (x <= x + r)%num.
Proof.
  destruct x as [q |]; simpl; [| done]. intros _ Hr.
  rewrite <- (Qplus_0_r q) at 1.
  apply Qplus_le_compat; [apply Qle_refl | exact Hr].
Qed.

(** The numbers that are not negative are finite. *)
Lemma number_nonneg (x : number) :
  (0%Q <= x)%num -> exists q, x = Finite q /\ (0 <= q)%Q.
Proof. destruct x as [q |]; simpl; [by exists q | done]. Qed.

Lemma existsb_eqb_elem_of (s : string) (l : list string) :
  existsb (String.eqb s) l = true <-> s ∈ l.
Proof.
  rewrite existsb_exists. split.
  - intros (x & Hin & Heq). apply String.eqb_eq in Heq. subst x.
    by apply list_elem_of_In.
  - intros Hin. exists s. split; [by apply list_elem_of_In |].
    apply String.eqb_refl.
Qed.

Lemma py_in_true (m : option string) (l : list string) :
  py_in m l = true <-> one_of m l.
Proof.
  destruct m as [s |]; simpl.
  - rewrite existsb_eqb_elem_of. split.
    + intros Hin. by exists s.
    + by intros (s' & [= <-] & Hin).
  - split; [done |]. by intros (s' & [=] & _).
Qed.

Lemma py_in_false (m : option string) (l : list string) :
  py_in m l = false <-> ~ one_of m l.
Proof.
  rewrite <- py_in_true. destruct (py_in m l); split; try done;
    intros H; by destruct H.
Qed.

Lemma py_eq_true (m : option string) (s : string) :
  py_eq m s = true <-> m = Some s.
Proof.
  destruct m as [x |]; simpl; [| done].
  rewrite String.eqb_eq. split; congruence.
Qed.

Lemma py_eq_false (m : option string) (s : string) :
  py_eq m s = false <-> m <> Some s.
Proof.
  rewrite <- py_eq_true. destruct (py_eq m s); split; try done;
    intros H; by destruct H.
Qed.

(** ** The registry *)

Lemma MODEL_LIST_entries (k : string) (l : list string) :
  MODEL_LIST !! k = Some l <-> (k, l) ∈ family_table.
Proof.
  rewrite <- elem_of_map_to_list.
  assert (map_to_list MODEL_LIST ≡ₚ family_table) as ->; [| done].
  unfold MODEL_LIST, family_table.
  rewrite !map_to_list_insert, map_to_list_empty by (by vm_compute).
  done.
Qed.

Lemma all_identifiers_distinct :
  NoDup ([T5_MODEL] ++ LLAMA_MODELS ++ GPT_MODELS ++ VICUNA_MODELS
           ++ UL2_MODELS).
Proof. compute_done. Qed.

(** C6: [model_list()] takes no input, cannot fail (it is a total function
    that reads no state) and always returns the static family table
    [MODEL_LIST]; the entries of that table are exactly the five families
    t5, llama, gpt, vicuna and ul2 with their predefined identifier lists;
    and no identifier is listed under two different families. *)
Theorem model_list_family_table :
  (forall u : unit, model_list u = MODEL_LIST) /\
  (forall (k : string) (l : list string),
      model_list tt !! k = Some l <->
      (k, l) ∈ [ ("t5", ["google/flan-t5-large"]);
                 ("llama", LLAMA_MODELS);
                 ("gpt", GPT_MODELS);
                 ("vicuna", VICUNA_MODELS);
                 ("ul2", UL2_MODELS) ]) /\
  (forall (k1 k2 : string) (l1 l2 : list string) (s : string),
      model_list tt !! k1 = Some l1 ->
      model_list tt !! k2 = Some l2 ->
      s ∈ l1 -> s ∈ l2 -> k1 = k2).
Proof.
  split; [done |]. split; [apply MODEL_LIST_entries |].
  intros k1 k2 l1 l2 s H1 H2 Hs1 Hs2.
  apply MODEL_LIST_entries in H1, H2.
  pose proof all_identifiers_distinct as Hnd.
  rewrite !NoDup_app in Hnd.
  destruct Hnd as (_ & Ht5 & _ & Hll & _ & Hgpt & _ & Hvic & _).
  unfold family_table in H1, H2.
  rewrite !elem_of_cons, elem_of_nil in H1, H2.
  destruct H1 as [[= -> ->] | [[= -> ->] | [[= -> ->] | [[= -> ->]
    | [[= -> ->] | []]]]]];
  destruct H2 as [[= -> ->] | [[= -> ->] | [[= -> ->] | [[= -> ->]
    | [[= -> ->] | []]]]]]; try reflexivity; exfalso;
  first [ eapply Ht5; [exact Hs1 |] | eapply Ht5; [exact Hs2 |]
        | eapply Hll; [exact Hs1 |] | eapply Hll; [exact Hs2 |]
        | eapply Hgpt; [exact Hs1 |] | eapply Hgpt; [exact Hs2 |]
        | eapply Hvic; [exact Hs1 |] | eapply Hvic; [exact Hs2 |] ];
  rewrite ?elem_of_app; tauto.
Qed.

(** Two families and an identifier, run through C6. *)
Lemma model_list_family_table_witness :
  model_list tt !! "gpt" = Some GPT_MODELS /\
  model_list tt !! "gpt" = Some GPT_MODELS /\
  "gpt-4" ∈ GPT_MODELS /\
  "gpt" = "gpt".
Proof.
  assert (model_list tt !! "gpt" = Some GPT_MODELS) as Hgpt
    by (vm_compute; reflexivity).
  assert ("gpt-4" ∈ GPT_MODELS) as Hin
    by compute_done.
  split; [exact Hgpt |]. split; [exact Hgpt |]. split; [exact Hin |].
  exact (proj2 (proj2 model_list_family_table)
           "gpt" "gpt" GPT_MODELS GPT_MODELS "gpt-4" Hgpt Hgpt Hin Hin).
Defined.

(** ** Construction *)

Section Construction.

Context {L : Libraries}.

(** Each constructor returns an object of its own class. *)
Lemma T5Model_init_class kw a :
  T5Model_init kw = Ok a -> class_of a = ClassT5.
Proof.
  unfold T5Model_init.
  destruct (Tokenizer_from_pretrained _ _); simpl; try discriminate.
  destruct (Pipe_from_pretrained _ _); simpl; try discriminate.
  by intros [= <-].
Qed.

Lemma UL2Model_init_class kw a :
  UL2Model_init kw = Ok a -> class_of a = ClassUL2.
Proof.
  unfold UL2Model_init.
  destruct (Tokenizer_from_pretrained _ _); simpl; try discriminate.
  destruct (Pipe_from_pretrained _ _); simpl; try discriminate.
  by intros [= <-].
Qed.

Lemma LlamaModel_init_class kw a :
  LlamaModel_init kw = Ok a -> class_of a = ClassLlama.
Proof.
  unfold LlamaModel_init.
  destruct (negb _); try discriminate.
  destruct (Tokenizer_from_pretrained _ _); simpl; try discriminate.
  destruct (Pipe_from_pretrained _ _); simpl; try discriminate.
  by intros [= <-].
Qed.

Lemma VicunaModel_init_class kw a :
  VicunaModel_init kw = Ok a -> class_of a = ClassVicuna.
Proof.
  unfold VicunaModel_init.
  destruct (negb _); try discriminate.
  destruct (Tokenizer_from_pretrained _ _); simpl; try discriminate.
  destruct (Pipe_from_pretrained _ _); simpl; try discriminate.
  by intros [= <-].
Qed.

Lemma OpenAIModel_init_class kw a :
  OpenAIModel_init kw = Ok a -> class_of a = ClassOpenAI.
Proof.
  unfold OpenAIModel_init.
  repeat (match goal with |- context [if ?b then _ else _] => destruct b end;
          try discriminate).
  by intros [= <-].
Qed.

(** A branch of [create_model] that runs [init], seen from the facade. *)
Lemma selects_branch (m : option string) (kw : kwargs)
    (init : kwargs -> outcome adapter) (c : adapter_class) :
  create_model m kw = init kw ->
  (forall a, init kw = Ok a -> class_of a = c) ->
  selects m kw init c.
Proof.
  intros Heq Hc. split; [exact Heq |].
  split; [by rewrite Heq |]. split.
  - intros Hm. unfold LLMModel_init. rewrite Hm, Heq. by destruct (init kw).
  - intros Hm f. unfold LLMModel_init. rewrite Hm, Heq.
    destruct (init kw) as [a | e] eqn:Hi; simpl; [| discriminate].
    intros [= <-]. simpl. split; [done |]. split; [done |]. by apply Hc.
Qed.

(** C1: [create_model] dispatches on the identifier in a fixed order, the
    first match winning: the identifier 'google/flan-t5-large' selects
    [T5Model]; otherwise one of [LLAMA_MODELS] selects [LlamaModel];
    otherwise one of [GPT_MODELS] selects [OpenAIModel]; otherwise one of
    [VICUNA_MODELS] selects [VicunaModel]; otherwise one of [UL2_MODELS]
    selects [UL2Model]; and an identifier matching none of these makes
    construction raise the 'unsupported model' [ValueError], so that
    neither an adapter nor a facade is built.  Where a class is selected,
    the facade's constructor ends as the constructor of that class does:
    with its exception, or with the facade that holds the identifier and
    the adapter of that class. *)
Theorem create_model_dispatch (m : option string) (kw : kwargs) :
  (m = Some "google/flan-t5-large" ->
     selects m kw T5Model_init ClassT5) /\
  (m <> Some "google/flan-t5-large" -> one_of m LLAMA_MODELS ->
     selects m kw LlamaModel_init ClassLlama) /\
  (m <> Some "google/flan-t5-large" -> ~ one_of m LLAMA_MODELS ->
   one_of m GPT_MODELS ->
     selects m kw OpenAIModel_init ClassOpenAI) /\
  (m <> Some "google/flan-t5-large" -> ~ one_of m LLAMA_MODELS ->
   ~ one_of m GPT_MODELS -> one_of m VICUNA_MODELS ->
     selects m kw VicunaModel_init ClassVicuna) /\
  (m <> Some "google/flan-t5-large" -> ~ one_of m LLAMA_MODELS ->
   ~ one_of m GPT_MODELS -> ~ one_of m VICUNA_MODELS ->
   one_of m UL2_MODELS ->
     selects m kw UL2Model_init ClassUL2) /\
  (m <> Some "google/flan-t5-large" -> ~ one_of m LLAMA_MODELS ->
   ~ one_of m GPT_MODELS -> ~ one_of m VICUNA_MODELS ->
   ~ one_of m UL2_MODELS ->
     create_model m kw = Raise (ValueError "The model is not supported!") /\
     (forall a, create_model m kw <> Ok a) /\
     (kw_model kw = m ->
      LLMModel_init kw = Raise (ValueError "The model is not supported!") /\
      forall f, LLMModel_init kw <> Ok f)).
Proof.
  assert (forall b1 b2 b3 b4 b5,
            py_eq m "google/flan-t5-large" = b1 ->
            py_in m LLAMA_MODELS = b2 -> py_in m GPT_MODELS = b3 ->
            py_in m VICUNA_MODELS = b4 -> py_in m UL2_MODELS = b5 ->
            create_model m kw =
              if b1 then T5Model_init kw
              else if b2 then LlamaModel_init kw
              else if b3 then OpenAIModel_init kw
              else if b4 then VicunaModel_init kw
              else if b5 then UL2Model_init kw
              else Raise (ValueError "The model is not supported!")) as Hchain.
  { by intros b1 b2 b3 b4 b5 <- <- <- <- <-. }
  split; [| split; [| split; [| split; [| split]]]];
    repeat match goal with
      | |- _ -> _ => intro
      | H : _ = Some _ |- _ => apply py_eq_true in H
      | H : _ <> Some _ |- _ => apply py_eq_false in H
      | H : one_of _ _ |- _ => apply py_in_true in H
      | H : ~ one_of _ _ |- _ => apply py_in_false in H
      end.
  - apply selects_branch; [| apply T5Model_init_class].
    by erewrite Hchain by (try eassumption; reflexivity).
  - apply selects_branch; [| apply LlamaModel_init_class].
    by erewrite Hchain by (try eassumption; reflexivity).
  - apply selects_branch; [| apply OpenAIModel_init_class].
    by erewrite Hchain by (try eassumption; reflexivity).
  - apply selects_branch; [| apply VicunaModel_init_class].
    by erewrite Hchain by (try eassumption; reflexivity).
  - apply selects_branch; [| apply UL2Model_init_class].
    by erewrite Hchain by (try eassumption; reflexivity).
  - assert (create_model m kw
            = Raise (ValueError "The model is not supported!")) as Hraise
      by (by erewrite Hchain by eassumption).
    split; [exact Hraise |]. split; [by rewrite Hraise |].
    intros Hm. unfold LLMModel_init. rewrite Hm, Hraise. by split.
Qed.

(** *** The remote adapter's constructor *)

Lemma OpenAIModel_init_cases (kw : kwargs) :
  let t := default (Finite 0%Q) (kw_temperature kw) in
  let s := default (Finite 3%Q) (kw_sleep_time kw) in
  OpenAIModel_init kw =
    if negb (truthy (kw_openai_key kw)) then
      Raise (ValueError "openai_key is required for openai model!")
    else if gt0 t then Raise (Warning temperature_message)
    else if gt0 s then Raise (Warning sleep_time_message)
    else Ok (OpenAIModel {| rm_base := LMMBaseModel_init kw;
                            openai_key := kw_openai_key kw;
                            temperature := t;
                            sleep_time := s |}).
Proof. reflexivity. Qed.

(** C8 as amended: with a credential supplied and the retry delay left at
    its default of 3, or set to any positive value, [OpenAIModel.__init__]
    raises (a [Warning]) and builds no adapter; it completes only when
    neither the temperature nor the retry delay is greater than 0, that is,
    when each of the two is at most 0 or is NaN; and with a credential it
    does complete then, with the adapter that holds the two numbers. *)
Theorem OpenAIModel_init_needs_nonpositive (kw : kwargs) :
  (truthy (kw_openai_key kw) = true ->
   (0%Q < default (Finite 3%Q) (kw_sleep_time kw))%num ->
     (exists msg, OpenAIModel_init kw = Raise (Warning msg)) /\
     forall a, OpenAIModel_init kw <> Ok a) /\
  (forall a, OpenAIModel_init kw = Ok a ->
     ((default (Finite 0%Q) (kw_temperature kw) <= 0%Q)%num \/
      default (Finite 0%Q) (kw_temperature kw) = NaN) /\
     ((default (Finite 3%Q) (kw_sleep_time kw) <= 0%Q)%num \/
      default (Finite 3%Q) (kw_sleep_time kw) = NaN)) /\
  (truthy (kw_openai_key kw) = true ->
   (default (Finite 0%Q) (kw_temperature kw) <= 0%Q)%num \/
     default (Finite 0%Q) (kw_temperature kw) = NaN ->
   (default (Finite 3%Q) (kw_sleep_time kw) <= 0%Q)%num \/
     default (Finite 3%Q) (kw_sleep_time kw) = NaN ->
     OpenAIModel_init kw =
       Ok (OpenAIModel
             {| rm_base := LMMBaseModel_init kw;
                openai_key := kw_openai_key kw;
                temperature := default (Finite 0%Q) (kw_temperature kw);
                sleep_time := default (Finite 3%Q) (kw_sleep_time kw) |})).
Proof.
  rewrite OpenAIModel_init_cases. cbv zeta.
  split; [| split].
  - intros -> Hs%gt0_true. rewrite Hs. simpl.
    destruct (gt0 (default (Finite 0%Q) _)); (split; [by eexists | done]).
  - intros a. destruct (negb _); [discriminate |].
    destruct (gt0 (default (Finite 0%Q) _)) eqn:Ht; [discriminate |].
    destruct (gt0 (default (Finite 3%Q) _)) eqn:Hs; [discriminate |].
    intros _. split; by apply gt0_false.
  - intros -> Ht%gt0_false Hs%gt0_false. by rewrite Ht, Hs.
Qed.

(** C5 as amended: [LlamaModel] and [VicunaModel] raise a [ValueError] when
    [model_dir] is absent or empty, and [OpenAIModel] raises one when
    [openai_key] is absent or empty; with a non-empty value the check
    passes: the local constructors go on to load from [model_dir] and
    return the adapter when both loads succeed, and the remote constructor
    raises no [ValueError].  [T5Model] and [UL2Model] have no such check:
    they load the tokenizer and the model by the model identifier, return
    the adapter when both loads succeed and raise what a load raises, and
    do not read [model_dir]. *)
Theorem required_key_checks (kw : kwargs) :
  (truthy (kw_model_dir kw) = false ->
     LlamaModel_init kw =
       Raise (ValueError "model_dir is required for llama model!") /\
     VicunaModel_init kw =
       Raise (ValueError "model_dir is required for llama model!")) /\
  (truthy (kw_openai_key kw) = false ->
     OpenAIModel_init kw =
       Raise (ValueError "openai_key is required for openai model!")) /\
  (truthy (kw_model_dir kw) = true ->
     (forall tok p,
        Tokenizer_from_pretrained LlamaTokenizer (kw_model_dir kw) = Ok tok ->
        Pipe_from_pretrained LlamaForCausalLM (kw_model_dir kw) = Ok p ->
        LlamaModel_init kw =
          Ok (LlamaModel {| lm_base := LMMBaseModel_init kw;
                            tokenizer := tok; pipe := p |})) /\
     (forall tok p,
        Tokenizer_from_pretrained AutoTokenizer_slow (kw_model_dir kw)
          = Ok tok ->
        Pipe_from_pretrained AutoModelForCausalLM (kw_model_dir kw) = Ok p ->
        VicunaModel_init kw =
          Ok (VicunaModel {| lm_base := LMMBaseModel_init kw;
                             tokenizer := tok; pipe := p |}))) /\
  (truthy (kw_openai_key kw) = true ->
     forall msg, OpenAIModel_init kw <> Raise (ValueError msg)) /\
  (forall dir,
     T5Model_init (with_model_dir dir kw) = T5Model_init kw /\
     UL2Model_init (with_model_dir dir kw) = UL2Model_init kw) /\
  (forall tok p,
     Tokenizer_from_pretrained T5Tokenizer (kw_model kw) = Ok tok ->
     Pipe_from_pretrained T5ForConditionalGeneration (kw_model kw) = Ok p ->
     T5Model_init kw =
       Ok (T5Model {| lm_base := LMMBaseModel_init kw;
                      tokenizer := tok; pipe := p |})) /\
  (forall tok p,
     Tokenizer_from_pretrained AutoTokenizer (kw_model kw) = Ok tok ->
     Pipe_from_pretrained T5ForConditionalGeneration (kw_model kw) = Ok p ->
     UL2Model_init kw =
       Ok (UL2Model {| lm_base := LMMBaseModel_init kw;
                       tokenizer := tok; pipe := p |})) /\
  (forall e,
     (Tokenizer_from_pretrained T5Tokenizer (kw_model kw) = Raise e ->
        T5Model_init kw = Raise e) /\
     (Tokenizer_from_pretrained AutoTokenizer (kw_model kw) = Raise e ->
        UL2Model_init kw = Raise e) /\
     (forall tok,
        Pipe_from_pretrained T5ForConditionalGeneration (kw_model kw)
          = Raise e ->
        (Tokenizer_from_pretrained T5Tokenizer (kw_model kw) = Ok tok ->
           T5Model_init kw = Raise e) /\
        (Tokenizer_from_pretrained AutoTokenizer (kw_model kw) = Ok tok ->
           UL2Model_init kw = Raise e))).
Proof.
  split; [| split; [| split; [| split; [| split; [| split; [| split]]]]]].
  - intros H. unfold LlamaModel_init, VicunaModel_init. by rewrite H.
  - intros H. rewrite OpenAIModel_init_cases. cbv zeta. by rewrite H.
  - intros H. split; intros tok p Htok Hp.
    + unfold LlamaModel_init. by rewrite H, Htok, Hp.
    + unfold VicunaModel_init. by rewrite H, Htok, Hp.
  - intros H msg. rewrite OpenAIModel_init_cases. cbv zeta. rewrite H.
    simpl. by repeat destruct (gt0 _).
  - done.
  - intros tok p Htok Hp. unfold T5Model_init. simpl. by rewrite Htok, Hp.
  - intros tok p Htok Hp. unfold UL2Model_init. simpl. by rewrite Htok, Hp.
  - intros e. unfold T5Model_init, UL2Model_init. simpl.
    split; [by intros -> |]. split; [by intros -> |].
    intros tok Hp. rewrite Hp. split; by intros ->.
Qed.

End Construction.

(** *** Construction, run on the stub libraries *)

Module OnStub.

#[local] Instance construction_libraries : Libraries := Stub.libs Stub.echo.

Example create_gpt4_default :
  create_model (Some "gpt-4") (Stub.remote None None)
  = Raise (Warning "We suggest to set sleep time > 0 (i.e., 5).").
Proof. reflexivity. Qed.

Example create_unknown :
  create_model (Some "mistral-7b") (Stub.local "mistral-7b" (Some "/w"))
  = Raise (ValueError "The model is not supported!").
Proof. reflexivity. Qed.

Example create_without_identifier :
  create_model None Stub.no_kwargs
  = Raise (ValueError "The model is not supported!").
Proof. reflexivity. Qed.

(** C1 at the identifier 'gpt-4': not the T5 identifier, not a Llama
    identifier, a GPT identifier; with a retry delay of 0 the facade is
    built around the remote adapter. *)
Lemma create_model_dispatch_witness :
  Some "gpt-4" <> Some "google/flan-t5-large" /\
  ~ one_of (Some "gpt-4") LLAMA_MODELS /\
  one_of (Some "gpt-4") GPT_MODELS /\
  selects (Some "gpt-4") (Stub.remote None (Some 0%Q))
    OpenAIModel_init ClassOpenAI /\
  LLMModel_init (Stub.remote None (Some 0%Q))
    = Ok {| facade_model := Some "gpt-4";
            infer_model := OpenAIModel Stub.remote0 |}.
Proof.
  assert (Some "gpt-4" <> Some "google/flan-t5-large") as H1
    by discriminate.
  assert (~ one_of (Some "gpt-4") LLAMA_MODELS) as H2
    by (apply py_in_false; reflexivity).
  assert (one_of (Some "gpt-4") GPT_MODELS) as H3
    by (apply py_in_true; reflexivity).
  split; [exact H1 |]. split; [exact H2 |]. split; [exact H3 |].
  split.
  - exact (proj1 (proj2 (proj2
             (create_model_dispatch (Some "gpt-4")
                (Stub.remote None (Some 0%Q))))) H1 H2 H3).
  - exact (proj1 (proj2 (proj2 (proj1 (proj2 (proj2
             (create_model_dispatch (Some "gpt-4")
                (Stub.remote None (Some 0%Q))))) H1 H2 H3))) eq_refl).
Defined.

(** C8 as stated fails at a temperature of NaN: with a credential and a
    retry delay of 0 the constructor completes, and the temperature of the
    adapter it returns is not at most 0. *)
Lemma OpenAIModel_init_nan_counterexample :
  truthy (kw_openai_key Stub.remote_nan) = true /\
  kw_temperature Stub.remote_nan = Some NaN /\
  kw_sleep_time Stub.remote_nan = Some (Finite 0%Q) /\
  (exists self,
     OpenAIModel_init Stub.remote_nan = Ok (OpenAIModel self) /\
     temperature self = NaN /\
     ~ (temperature self <= 0%Q)%num).
Proof.
  repeat (split; [reflexivity |]).
  eexists. split; [reflexivity |]. split; [reflexivity |]. intros [].
Qed.

(** C8 as amended at the default retry delay, at a retry delay of 0, and at
    a temperature of NaN. *)
Lemma OpenAIModel_init_needs_nonpositive_witness :
  (truthy (kw_openai_key (Stub.remote None None)) = true /\
   (0%Q < default (Finite 3%Q) (kw_sleep_time (Stub.remote None None)))%num /\
   exists msg, OpenAIModel_init (Stub.remote None None) = Raise (Warning msg))
  /\
  (truthy (kw_openai_key (Stub.remote None (Some 0%Q))) = true /\
   ((default (Finite 0%Q) (kw_temperature (Stub.remote None (Some 0%Q)))
       <= 0%Q)%num \/
    default (Finite 0%Q) (kw_temperature (Stub.remote None (Some 0%Q)))
      = NaN) /\
   ((default (Finite 3%Q) (kw_sleep_time (Stub.remote None (Some 0%Q)))
       <= 0%Q)%num \/
    default (Finite 3%Q) (kw_sleep_time (Stub.remote None (Some 0%Q)))
      = NaN) /\
   OpenAIModel_init (Stub.remote None (Some 0%Q))
     = Ok (OpenAIModel Stub.remote0)) /\
  (truthy (kw_openai_key Stub.remote_nan) = true /\
   default (Finite 0%Q) (kw_temperature Stub.remote_nan) = NaN /\
   exists self,
     OpenAIModel_init Stub.remote_nan = Ok (OpenAIModel self) /\
     temperature self = NaN).
Proof.
  assert (0 < 3)%Q as Hpos by reflexivity.
  assert (0 <= 0)%Q as Hzero by (vm_compute; discriminate).
  split; [| split].
  - split; [reflexivity |]. split; [exact Hpos |].
    exact (proj1 (proj1 (OpenAIModel_init_needs_nonpositive
                           (Stub.remote None None))
                    eq_refl Hpos)).
  - split; [reflexivity |]. split; [left; exact Hzero |].
    split; [left; exact Hzero |].
    exact (proj2 (proj2 (OpenAIModel_init_needs_nonpositive
                           (Stub.remote None (Some 0%Q))))
             eq_refl (or_introl Hzero) (or_introl Hzero)).
  - split; [reflexivity |]. split; [reflexivity |].
    eexists.
    split;
      [ exact (proj2 (proj2
                 (OpenAIModel_init_needs_nonpositive Stub.remote_nan))
                 eq_refl (or_intror eq_refl) (or_introl Hzero))
      | reflexivity ].
Defined.

(** C2, the code at two configurations with a credential: a temperature
    of 0.7 with a retry delay of 0, and the defaults.  In both the
    constructor raises the [Warning] and no adapter is built, where the
    claim has the warnings advisory and construction completing. *)
Theorem OpenAIModel_init_warning_blocks :
  OpenAIModel_init (Stub.remote (Some (7 # 10)%Q) (Some 0%Q))
    = Raise (Warning
        "Temperature is not 0, so that the results may not be reproducable!")
  /\
  OpenAIModel_init (Stub.remote None None)
    = Raise (Warning "We suggest to set sleep time > 0 (i.e., 5).").
Proof. split; reflexivity. Qed.

(** C4, the code at retry delays of 3 (the default), 5, 0 and -1, with a
    credential and the default temperature: the [Warning] that suggests a
    retry delay above 0 is raised for 3 and for 5, and not for 0 or -1,
    the reverse of the claim. *)
Theorem sleep_time_warning_on_positive :
  OpenAIModel_init (Stub.remote None None)
    = Raise (Warning sleep_time_message) /\
  OpenAIModel_init (Stub.remote None (Some 5%Q))
    = Raise (Warning sleep_time_message) /\
  (exists a, OpenAIModel_init (Stub.remote None (Some 0%Q)) = Ok a) /\
  (exists a, OpenAIModel_init (Stub.remote None (Some (-1)%Q)) = Ok a).
Proof. repeat split; try reflexivity; eexists; reflexivity. Qed.

(** C5 as stated fails: with no [model_dir] the T5 identifier constructs
    its adapter, and a [model_dir] supplied as the empty string does not
    pass the check of [LlamaModel]. *)
Lemma required_key_counterexample :
  (kw_model_dir (Stub.local "google/flan-t5-large" None) = None /\
   exists a,
     create_model (Some "google/flan-t5-large")
       (Stub.local "google/flan-t5-large" None) = Ok a
     /\ class_of a = ClassT5) /\
  (kw_model_dir (Stub.local "llama2-7b" (Some "")) = Some "" /\
   create_model (Some "llama2-7b") (Stub.local "llama2-7b" (Some ""))
     = Raise (ValueError "model_dir is required for llama model!")).
Proof.
  split; (split; [reflexivity |]); [| reflexivity].
  eexists. split; reflexivity.
Qed.

(** C5 as amended, at a Llama configuration without and with a
    [model_dir], at the remote configuration, and at the T5 identifier
    without a [model_dir]. *)
Lemma required_key_checks_witness :
  (truthy (kw_model_dir (Stub.local "llama2-7b" None)) = false /\
   LlamaModel_init (Stub.local "llama2-7b" None)
     = Raise (ValueError "model_dir is required for llama model!")) /\
  (truthy (kw_openai_key (Stub.local "gpt-4" None)) = false /\
   OpenAIModel_init (Stub.local "gpt-4" None)
     = Raise (ValueError "openai_key is required for openai model!")) /\
  (truthy (kw_model_dir (Stub.local "llama2-7b" (Some "/w"))) = true /\
   LlamaModel_init (Stub.local "llama2-7b" (Some "/w"))
     = Ok (LlamaModel
             {| lm_base := LMMBaseModel_init
                             (Stub.local "llama2-7b" (Some "/w"));
                tokenizer := Stub.tok; pipe := Stub.echo |})) /\
  (truthy (kw_openai_key (Stub.remote None None)) = true /\
   OpenAIModel_init (Stub.remote None None)
     <> Raise (ValueError "openai_key is required for openai model!")) /\
  (Tokenizer_from_pretrained T5Tokenizer (Some "google/flan-t5-large")
     = Ok Stub.tok /\
   Pipe_from_pretrained T5ForConditionalGeneration
     (Some "google/flan-t5-large") = Ok Stub.echo /\
   T5Model_init (Stub.local "google/flan-t5-large" None)
     = Ok (T5Model (Stub.local_with "google/flan-t5-large"))).
Proof.
  split; [| split; [| split; [| split]]]; (split; [reflexivity |]).
  - exact (proj1 (proj1 (required_key_checks (Stub.local "llama2-7b" None))
                    eq_refl)).
  - exact (proj1 (proj2 (required_key_checks (Stub.local "gpt-4" None)))
             eq_refl).
  - exact (proj1 (proj1 (proj2 (proj2
             (required_key_checks (Stub.local "llama2-7b" (Some "/w")))))
             eq_refl) Stub.tok Stub.echo eq_refl eq_refl).
  - exact (proj1 (proj2 (proj2 (proj2
             (required_key_checks (Stub.remote None None)))))
             eq_refl _).
  - split; [reflexivity |].
    exact (proj1 (proj2 (proj2 (proj2 (proj2 (proj2
             (required_key_checks (Stub.local "google/flan-t5-large" None)))))))
             Stub.tok Stub.echo eq_refl eq_refl).
Defined.

End OnStub.

(** ** Prediction *)

Lemma predicted_app (h1 h2 : list event) :
  predicted (h1 ++ h2) = predicted h1 ++ predicted h2.
Proof. apply omap_app. Qed.

Lemma count_events_app (p : event -> bool) (h1 h2 : list event) :
  count_events p (h1 ++ h2) = count_events p h1 + count_events p h2.
Proof. unfold count_events. by rewrite List.filter_app, length_app. Qed.

Lemma quiet_mret {A} (a : A) : quiet (mret a).
Proof. by intros w. Qed.

Lemma quiet_lift {A} (x : outcome A) : quiet (lift x).
Proof. by intros w. Qed.

Lemma quiet_set_api_key (k : option string) : quiet (set_api_key k).
Proof. by intros w. Qed.

Lemma quiet_emit (e : event) : is_predict e = None -> quiet (emit e).
Proof.
  intros He w. simpl. rewrite predicted_app. unfold predicted at 2. simpl.
  rewrite He. apply app_nil_r.
Qed.

Lemma quiet_mbind {A B} (c : M A) (k : A -> M B) :
  quiet c -> (forall a, quiet (k a)) -> quiet (mbind c k).
Proof.
  intros Hc Hk w. unfold mbind. specialize (Hc w).
  destruct (c w) as [[a | e |] w1]; simpl in *; [| done | done].
  by rewrite Hk.
Qed.

Lemma quiet_try_except {A} (body : M A) (handler : exn -> M A) :
  quiet body -> (forall e, quiet (handler e)) -> quiet (try_except body handler).
Proof.
  intros Hb Hh w. unfold try_except. specialize (Hb w).
  destruct (body w) as [[a | e |] w1]; simpl in *; [done | | done].
  by rewrite Hh.
Qed.

Lemma quiet_while_true {A} (fuel : nat) (body : M (ctl A)) :
  quiet body -> quiet (while_true fuel body).
Proof.
  intros Hb. induction fuel as [| fuel IH]; intros w; simpl; [done |].
  specialize (Hb w).
  destruct (body w) as [[[| a] | e |] w1]; simpl in *; try done.
  by rewrite IH.
Qed.

Create HintDb quiet.

#[local] Hint Resolve quiet_mret quiet_lift quiet_set_api_key quiet_emit
  quiet_mbind quiet_try_except quiet_while_true : quiet.

(** A loop whose body returns or raises on its first pass runs one pass. *)
Lemma while_true_return {A} (fuel : nat) (body : M (ctl A)) (w w' : world)
    (a : A) :
  body w = (Returns (Return a), w') ->
  while_true (S fuel) body w = (Returns a, w').
Proof. intros H. simpl. by rewrite H. Qed.


Section Prediction.

Context {L : Libraries}.

Lemma quiet_chat_create (req : request) : quiet (chat_create req).
Proof.
  intros w. simpl. rewrite predicted_app. apply app_nil_r.
Qed.

Lemma quiet_OpenAIModel_sleep (self : RemoteModel) (seconds : number) :
  quiet (OpenAIModel_sleep self seconds).
Proof.
  intros w. unfold OpenAIModel_sleep. by apply quiet_emit.
Qed.

Lemma quiet_OpenAIModel_predict fuel (self : RemoteModel) input_text :
  quiet (OpenAIModel_predict fuel self input_text).
Proof.
  unfold OpenAIModel_predict, OpenAIModel_predict_body.
  auto 10 using quiet_chat_create, quiet_OpenAIModel_sleep with quiet.
Qed.

(** One call of [predict] adds exactly its own text to the texts
    predicted, whether it returns or raises. *)
Lemma predict_predicted fuel (self : adapter) input_text (w : world) :
  predicted (trace (snd (predict fuel self input_text w)))
  = predicted (trace w) ++ [input_text].
Proof.
  assert (forall c : M (option string), quiet c ->
            predicted (trace (snd
              (mbind (emit (EPredict input_text)) (fun _ => c) w)))
            = predicted (trace w) ++ [input_text]) as Hstep.
  { intros c Hc. unfold mbind. simpl. rewrite Hc. simpl.
    by rewrite predicted_app. }
  unfold predict. destruct self; apply Hstep;
    auto using quiet_OpenAIModel_predict with quiet.
Qed.

(** A [time.sleep] that accepts the durations that are not negative
    accepts a delay that is not negative plus a random offset. *)
Lemma sleep_accepted (x : number) (r : Q) :
  (forall d, (0 <= d)%Q -> time_sleep d = Ok tt) ->
  (0%Q <= x)%num -> (0 <= r)%Q ->
  time_sleep (x + r)%num = Ok tt.
Proof.
  intros Hsleep Hx Hr. destruct x as [q |]; simpl in *; [| done].
  apply Hsleep. by apply (Qplus_le_compat 0 q 0 r).
Qed.


(** When the chat call answers with at least one choice, [predict] returns
    the content of the first one, after one pass of the loop. *)
Lemma OpenAIModel_predict_answer (fuel : nat) (self : RemoteModel)
    (input_text : string) (w : world) (c : message) (cs : list message) :
  let req := {| req_model := model (rm_base self);
                req_messages := [ {| role := "user";
                                     content := input_text |} ];
                req_temperature := temperature self |} in
  ChatCompletion_create (trace w) (openai_key self) req
    = Ok {| choices := c :: cs |} ->
  OpenAIModel_predict (S fuel) self input_text w
  = (Returns (Some (content c)),
     {| openai_api_key := openai_key self;
        trace := trace w ++ [EChat (openai_key self) req] |}).
Proof.
  intros req Hcall.
  unfold OpenAIModel_predict, mbind, try_except, set_api_key.
  erewrite while_true_return; [reflexivity |].
  unfold OpenAIModel_predict_body, mbind, chat_create. simpl.
  fold req. rewrite Hcall. reflexivity.
Qed.

(** *** The scoring helper *)

(** The loop calls [predict] on the items in order, and returns only when
    it has called it on all of them. *)
Lemma predict_loop_prefix fuel (self : adapter) (input_texts : list string)
    (raw_preds : list (option string)) (w : world) :
  exists k, k <= length input_texts /\
    predicted (trace (snd (predict_loop fuel self input_texts raw_preds w)))
    = predicted (trace w) ++ take k input_texts /\
    (forall raw,
       fst (predict_loop fuel self input_texts raw_preds w) = Returns raw ->
       k = length input_texts).
Proof.
  revert raw_preds w.
  induction input_texts as [| t rest IH]; intros raw_preds w; simpl.
  - exists 0. by rewrite app_nil_r.
  - unfold mbind. pose proof (predict_predicted fuel self t w) as Hp.
    destruct (predict fuel self t w) as [[p | e |] w1]; simpl in Hp.
    + destruct (IH (raw_preds ++ [p]) w1) as (k & Hk & Heq & Hall).
      exists (S k). split; [lia |]. split.
      * rewrite Heq, Hp, <- app_assoc. reflexivity.
      * intros raw Hraw. by rewrite (Hall raw Hraw).
    + exists 1. split; [lia |]. simpl. by rewrite Hp, take_0.
    + exists 1. split; [lia |]. simpl. by rewrite Hp, take_0.
Qed.

Lemma predict_loop_all fuel (self : adapter) (input_texts : list string)
    (raw_preds : list (option string)) (w : world) :
  (forall t w1, t ∈ input_texts ->
     exists out, fst (predict fuel self t w1) = Returns out) ->
  exists outs,
    fst (predict_loop fuel self input_texts raw_preds w)
      = Returns (raw_preds ++ outs) /\
    length outs = length input_texts /\
    predicted (trace (snd (predict_loop fuel self input_texts raw_preds w)))
    = predicted (trace w) ++ input_texts.
Proof.
  revert raw_preds w.
  induction input_texts as [| t rest IH]; intros raw_preds w Hret; simpl.
  - exists []. by rewrite !app_nil_r.
  - unfold mbind. pose proof (predict_predicted fuel self t w) as Hp.
    destruct (Hret t w) as (out & Hout); [by left |].
    destruct (predict fuel self t w) as [r w1]; simpl in Hp, Hout.
    subst r.
    destruct (IH (raw_preds ++ [out]) w1) as (outs & Hres & Hlen & Heq).
    { intros t' w' Hin. apply Hret. by right. }
    exists (out :: outs). rewrite Hres, Heq, Hp, <- !app_assoc. simpl.
    by rewrite Hlen.
Qed.

(** The texts predicted by the calls on a list of texts. *)
Lemma predict_world_predicted fuel (self : adapter)
    (input_texts : list string) (w : world) :
  predicted (trace (predict_world fuel self input_texts w))
  = predicted (trace w) ++ input_texts.
Proof.
  revert w. induction input_texts as [| t rest IH]; intros w; simpl.
  - by rewrite app_nil_r.
  - by rewrite IH, predict_predicted, <- app_assoc.
Qed.

(** The loop ends at the first call of [predict] that raises, with its
    exception and in the world that call has left. *)
Lemma predict_loop_stops fuel (self : adapter) (before after : list string)
    (t : string) (outs : list (option string)) (e : exn)
    (raw_preds : list (option string)) (w : world) :
  predict_endings fuel self before w = map Returns outs ->
  fst (predict fuel self t (predict_world fuel self before w)) = Raises e ->
  predict_loop fuel self (before ++ t :: after) raw_preds w
  = (Raises e, snd (predict fuel self t (predict_world fuel self before w))).
Proof.
  revert outs raw_preds w.
  induction before as [| x rest IH]; intros outs raw_preds w Hends Hraise;
    simpl in *; unfold mbind.
  - destruct (predict fuel self t w) as [r w1]. simpl in Hraise. by subst r.
  - destruct outs as [| o outs]; [discriminate |].
    injection Hends as Hx Hrest.
    destruct (predict fuel self x w) as [r w1]. simpl in *. subst r.
    by apply (IH outs).
Qed.

(** A constructor's object has no dataset attached. *)
Lemma create_model_raw_dataset (m : option string) (kw : kwargs)
    (a : adapter) :
  create_model m kw = Ok a -> raw_dataset (base a) = None.
Proof.
  unfold create_model, T5Model_init, UL2Model_init, LlamaModel_init,
    VicunaModel_init, OpenAIModel_init.
  repeat match goal with
    | |- context [if ?b then _ else _] => destruct b
    | |- context [obind ?x _] => destruct x; simpl
    end; try discriminate; by intros [= <-].
Qed.

(** C7 as amended: [predict_dataset] on an adapter with no dataset
    attached, as every newly constructed adapter is, raises
    [AssertionError] at once: the world is unchanged and [predict] is not
    called.  With a dataset attached by [set_raw_dataset], whose processed
    input list is [input_texts], one run calls [predict] on the items of
    [input_texts] in order, each at most once, and a run that stops before
    the last item returns no score.  When the run returns a score, and when
    every call of [predict] returns, [predict] is called on exactly the
    items of [input_texts], in order: [length input_texts] calls.  The
    first call of [predict] that raises ends the run with its exception:
    [predict] has then been called on the items up to that one and on no
    later item. *)
Theorem predict_dataset_calls (fuel : nat) (self : adapter)
    (prompt : Prompt) (w : world) :
  (raw_dataset (base self) = None ->
     predict_dataset fuel self prompt w = (Raises AssertionError, w)) /\
  (forall m kw, create_model m kw = Ok self ->
     predict_dataset fuel self prompt w = (Raises AssertionError, w)) /\
  (forall (ds : Dataset) (input_texts : list string) (labels : Labels),
     process_input prompt ds = Ok (input_texts, labels) ->
     let self' := set_raw_dataset self (Some ds) in
     let run := predict_dataset fuel self' prompt w in
     (exists k, k <= length input_texts /\
        predicted (trace (snd run))
          = predicted (trace w) ++ take k input_texts /\
        (k < length input_texts -> forall score, fst run <> Returns score)) /\
     (forall score, fst run = Returns score ->
        predicted (trace (snd run)) = predicted (trace w) ++ input_texts /\
        length (predicted (trace (snd run)))
          = length (predicted (trace w)) + length input_texts) /\
     ((forall t w1, t ∈ input_texts ->
         exists out, fst (predict fuel self' t w1) = Returns out) ->
        predicted (trace (snd run)) = predicted (trace w) ++ input_texts /\
        length (predicted (trace (snd run)))
          = length (predicted (trace w)) + length input_texts) /\
     (forall (before after : list string) (t : string)
             (outs : list (option string)) (e : exn),
        input_texts = before ++ t :: after ->
        predict_endings fuel self' before w = map Returns outs ->
        fst (predict fuel self' t (predict_world fuel self' before w))
          = Raises e ->
        fst run = Raises e /\
        predicted (trace (snd run))
          = predicted (trace w) ++ before ++ [t] /\
        length (predicted (trace (snd run)))
          = length (predicted (trace w)) + length before + 1)).
Proof.
  assert (raw_dataset (base self) = None ->
          predict_dataset fuel self prompt w = (Raises AssertionError, w))
    as Hnone.
  { intros H. unfold predict_dataset. by rewrite H. }
  split; [exact Hnone |]. split.
  { intros m kw H. apply Hnone. by eapply create_model_raw_dataset. }
  intros ds input_texts labels Hin self' run.
  assert (raw_dataset (base self') = Some ds) as Hds
    by (subst self'; by destruct self).
  assert (forall r w1,
            predict_loop fuel self' input_texts [] w = (r, w1) ->
            snd run = w1 /\
            (forall score, fst run = Returns score ->
                           exists raw, r = Returns raw) /\
            (forall e, r = Raises e -> fst run = Raises e)) as Hrest.
  { intros r w1 Hloop.
    assert (run = match r with
                  | Returns raw =>
                      (to_ending
                         (obind (process_pred (dataset_name ds) raw)
                            (fun preds => eval ds preds labels)), w1)
                  | Raises e => (Raises e, w1)
                  | OutOfFuel => (OutOfFuel, w1)
                  end) as ->.
    { subst run. unfold predict_dataset.
      rewrite Hds. unfold mbind at 1. unfold lift at 1. rewrite Hin. simpl.
      unfold mbind at 1. rewrite Hloop.
      destruct r as [raw | e |]; [| done | done].
      unfold mbind, lift, mret.
      destruct (process_pred _ _); simpl; [| done].
      by destruct (eval _ _ _). }
    destruct r as [raw | e |]; simpl; (split; [done |]);
      (split; [intros score Hs | intros e' He']);
      first [by exists raw | discriminate | by injection He' as ->]. }
  pose proof (predict_loop_prefix fuel self' input_texts [] w)
    as (k & Hk & Hpre & Hall).
  destruct (predict_loop fuel self' input_texts [] w) as [r w1] eqn:Hloop.
  destruct (Hrest r w1 eq_refl) as (Hsnd & Hret & Hexc).
  rewrite Hsnd. simpl in Hpre, Hall.
  assert (forall score, fst run = Returns score ->
            predicted (trace w1) = predicted (trace w) ++ input_texts)
    as Hscore.
  { intros score Hs. destruct (Hret score Hs) as (raw & ->).
    rewrite Hpre, (Hall raw eq_refl). by rewrite firstn_all. }
  split; [| split; [| split]].
  - exists k. split; [exact Hk |]. split; [exact Hpre |].
    intros Hlt score Hs. destruct (Hret score Hs) as (raw & ->).
    specialize (Hall raw eq_refl). lia.
  - intros score Hs. rewrite (Hscore score Hs).
    split; [reflexivity |]. by rewrite length_app.
  - intros Hok.
    destruct (predict_loop_all fuel self' input_texts [] w Hok)
      as (outs & _ & _ & Heq).
    rewrite Hloop in Heq. simpl in Heq.
    split; [exact Heq |]. by rewrite Heq, length_app.
  - intros before after t outs e Hsplit Hends Hraise. subst input_texts.
    rewrite (predict_loop_stops fuel self' before after t outs e [] w
               Hends Hraise) in Hloop.
    injection Hloop as <- <-.
    split; [by apply Hexc |].
    rewrite predict_predicted, predict_world_predicted, <- app_assoc.
    split; [reflexivity |]. rewrite !length_app. simpl. lia.
Qed.

(** *** The two encoder-decoder adapters *)

(** C9: [T5Model.predict] and [UL2Model.predict] agree on every input text
    when their objects hold the same tokenizer, the same model and the same
    [max_new_tokens], whatever else they hold; and so do the calls
    dispatched to them. *)
Theorem T5_UL2_predict_equal (t5 ul2 : LocalModel) (input_text : string) :
  tokenizer t5 = tokenizer ul2 ->
  pipe t5 = pipe ul2 ->
  max_new_tokens (lm_base t5) = max_new_tokens (lm_base ul2) ->
  T5Model_predict t5 input_text = UL2Model_predict ul2 input_text /\
  (forall fuel w,
     predict fuel (T5Model t5) input_text w
     = predict fuel (UL2Model ul2) input_text w).
Proof.
  intros Htok Hpipe Hmax.
  assert (T5Model_predict t5 input_text = UL2Model_predict ul2 input_text)
    as Heq.
  { unfold T5Model_predict, UL2Model_predict.
    by rewrite Htok, Hpipe, Hmax. }
  split; [exact Heq |].
  intros fuel w. unfold predict. by rewrite Heq.
Qed.

(** *** The fields fixed at construction *)

Lemma invoke_base fuel (m : method) (self : adapter) (w : world) :
  model (base (snd (fst (invoke fuel m self w)))) = model (base self) /\
  max_new_tokens (base (snd (fst (invoke fuel m self w))))
    = max_new_tokens (base self) /\
  class_of (snd (fst (invoke fuel m self w))) = class_of self.
Proof.
  destruct m; simpl; try done; by destruct self.
Qed.

(** C10: [set_raw_dataset] changes the [raw_dataset] field and nothing
    else: the model identifier, [max_new_tokens] and the class are kept,
    and putting the old [raw_dataset] back gives the object as it was.
    No method call, and no sequence of method calls, changes the model
    identifier or [max_new_tokens]. *)
Theorem set_raw_dataset_frame (self : adapter) :
  (forall rd,
     raw_dataset (base (set_raw_dataset self rd)) = rd /\
     model (base (set_raw_dataset self rd)) = model (base self) /\
     max_new_tokens (base (set_raw_dataset self rd))
       = max_new_tokens (base self) /\
     class_of (set_raw_dataset self rd) = class_of self /\
     set_raw_dataset (set_raw_dataset self rd) (raw_dataset (base self))
       = self) /\
  (forall fuel (ms : list method) (w : world),
     model (base (fst (invoke_all fuel ms self w))) = model (base self) /\
     max_new_tokens (base (fst (invoke_all fuel ms self w)))
       = max_new_tokens (base self)).
Proof.
  split.
  - intros rd. by destruct self as [[[] ? ?] | [[] ? ?] | [[] ? ?]
                                    | [[] ? ?] | [[] ? ? ?]].
  - intros fuel ms. revert self.
    induction ms as [| m rest IH]; intros self w; simpl; [done |].
    pose proof (invoke_base fuel m self w) as (Hm & Hn & _).
    destruct (invoke fuel m self w) as [[r self1] w1]. simpl in Hm, Hn.
    destruct (IH self1 w1) as [IHm IHn]. split; congruence.
Qed.

End Prediction.

(** *** Prediction, run on the stub libraries *)

Module PredictOnStub.

#[local] Instance prediction_libraries : Libraries := Stub.libs Stub.echo.

Example remote0_constructed :
  OpenAIModel_init (Stub.remote None (Some 0%Q)) = Ok (OpenAIModel Stub.remote0).
Proof. reflexivity. Qed.

Example predict_down :
  OpenAIModel_predict 1 Stub.remote0 "down" Stub.w0
  = (Returns None,
     {| openai_api_key := Some "sk-test";
        trace := [ EChat (Some "sk-test") (Stub.request_for "down");
                   EPrint "service unavailable";
                   EPrint "Retrying...";
                   ESleep (Finite (0 + (1 # 2))%Q) ] |}).
Proof. reflexivity. Qed.

Example predict_down_more_fuel :
  OpenAIModel_predict 7 Stub.remote0 "down" Stub.w0
  = OpenAIModel_predict 1 Stub.remote0 "down" Stub.w0.
Proof. reflexivity. Qed.

Example predict_hello :
  fst (OpenAIModel_predict 1 Stub.remote0 "hello" Stub.w0)
  = Returns (Some "hello").
Proof. reflexivity. Qed.

Example predict_no_fuel :
  fst (OpenAIModel_predict 0 Stub.remote0 "hello" Stub.w0) = OutOfFuel.
Proof. reflexivity. Qed.



Example predict_dataset_two_rows :
  predicted (trace (snd
    (predict_dataset 1
       (set_raw_dataset (OpenAIModel Stub.remote0) (Some Stub.two_rows))
       "P:" Stub.w0)))
  = [ "P:a"; "P:down" ].
Proof. reflexivity. Qed.

Example predict_dataset_score :
  fst (predict_dataset 1
         (set_raw_dataset (OpenAIModel Stub.remote0) (Some Stub.two_rows))
         "a" Stub.w0)
  = Returns 0.
Proof. reflexivity. Qed.

(** C7 as amended on the remote adapter: without a dataset, and with two
    rows, where the run returns a score. *)
Lemma predict_dataset_calls_witness :
  (raw_dataset (base (OpenAIModel Stub.remote0)) = None /\
   predict_dataset 1 (OpenAIModel Stub.remote0) "P:" Stub.w0
     = (Raises AssertionError, Stub.w0)) /\
  (process_input "P:" Stub.two_rows = Ok ([ "P:a"; "P:down" ], [ "a"; "x" ]) /\
   (forall t w1, t ∈ [ "P:a"; "P:down" ] ->
      exists out,
        fst (predict 1 (set_raw_dataset (OpenAIModel Stub.remote0)
                          (Some Stub.two_rows)) t w1) = Returns out) /\
   predicted (trace (snd
     (predict_dataset 1
        (set_raw_dataset (OpenAIModel Stub.remote0) (Some Stub.two_rows))
        "P:" Stub.w0)))
   = predicted (trace Stub.w0) ++ [ "P:a"; "P:down" ]) /\
  (fst (predict_dataset 1
          (set_raw_dataset (OpenAIModel Stub.remote0) (Some Stub.two_rows))
          "P:" Stub.w0) = Returns 0 /\
   length (predicted (trace (snd
     (predict_dataset 1
        (set_raw_dataset (OpenAIModel Stub.remote0) (Some Stub.two_rows))
        "P:" Stub.w0))))
   = length (predicted (trace Stub.w0)) + length [ "P:a"; "P:down" ]) /\
  (process_input "" Stub.two_rows = Ok ([ "a"; "down" ], [ "a"; "x" ]) /\
   predict_endings 1
     (set_raw_dataset (OpenAIModel Stub.remote_neg) (Some Stub.two_rows))
     [ "a" ] Stub.w0 = [ Returns (Some "a") ] /\
   fst (predict 1
          (set_raw_dataset (OpenAIModel Stub.remote_neg) (Some Stub.two_rows))
          "down"
          (predict_world 1
             (set_raw_dataset (OpenAIModel Stub.remote_neg)
                (Some Stub.two_rows))
             [ "a" ] Stub.w0))
     = Raises (ValueError "sleep length must be non-negative") /\
   fst (predict_dataset 1
          (set_raw_dataset (OpenAIModel Stub.remote_neg) (Some Stub.two_rows))
          "" Stub.w0)
     = Raises (ValueError "sleep length must be non-negative") /\
   predicted (trace (snd
     (predict_dataset 1
        (set_raw_dataset (OpenAIModel Stub.remote_neg) (Some Stub.two_rows))
        "" Stub.w0)))
   = predicted (trace Stub.w0) ++ [ "a" ] ++ [ "down" ]).
Proof.
  assert (forall t w1, t ∈ [ "P:a"; "P:down" ] ->
            exists out,
              fst (predict 1 (set_raw_dataset (OpenAIModel Stub.remote0)
                                (Some Stub.two_rows)) t w1) = Returns out)
    as Hret.
  { intros t w1 Hin.
    apply elem_of_cons in Hin as [-> | Hin]; [eexists; reflexivity |].
    apply elem_of_cons in Hin as [-> | Hin]; [eexists; reflexivity |].
    by apply elem_of_nil in Hin. }
  split; [| split; [| split]].
  - split; [reflexivity |].
    exact (proj1 (predict_dataset_calls 1 (OpenAIModel Stub.remote0) "P:"
                    Stub.w0) eq_refl).
  - split; [reflexivity |]. split; [exact Hret |].
    exact (proj1 (proj1 (proj2 (proj2 (proj2 (proj2
             (predict_dataset_calls 1 (OpenAIModel Stub.remote0) "P:" Stub.w0))
             Stub.two_rows [ "P:a"; "P:down" ] [ "a"; "x" ] eq_refl))) Hret)).
  - split; [reflexivity |].
    exact (proj2 (proj1 (proj2 (proj2 (proj2
             (predict_dataset_calls 1 (OpenAIModel Stub.remote0) "P:" Stub.w0))
             Stub.two_rows [ "P:a"; "P:down" ] [ "a"; "x" ] eq_refl))
             0 eq_refl)).
  - split; [reflexivity |]. split; [reflexivity |]. split; [reflexivity |].
    pose proof (proj2 (proj2 (proj2 (proj2 (proj2
             (predict_dataset_calls 1 (OpenAIModel Stub.remote_neg) ""
                Stub.w0))
             Stub.two_rows [ "a"; "down" ] [ "a"; "x" ] eq_refl)))
             [ "a" ] [] "down" [ Some "a" ]
             (ValueError "sleep length must be non-negative")
             eq_refl eq_refl eq_refl) as (Hfst & Hpred & _).
    split; [exact Hfst | exact Hpred].
Defined.

(** C9 at two objects that differ in their model identifier only. *)
Lemma T5_UL2_predict_equal_witness :
  tokenizer (Stub.local_with "google/flan-t5-large")
    = tokenizer (Stub.local_with "google/flan-ul2") /\
  pipe (Stub.local_with "google/flan-t5-large")
    = pipe (Stub.local_with "google/flan-ul2") /\
  max_new_tokens (lm_base (Stub.local_with "google/flan-t5-large"))
    = max_new_tokens (lm_base (Stub.local_with "google/flan-ul2")) /\
  T5Model_predict (Stub.local_with "google/flan-t5-large") "hello"
    = UL2Model_predict (Stub.local_with "google/flan-ul2") "hello".
Proof.
  split; [reflexivity |]. split; [reflexivity |]. split; [reflexivity |].
  exact (proj1 (T5_UL2_predict_equal (Stub.local_with "google/flan-t5-large")
                  (Stub.local_with "google/flan-ul2") "hello"
                  eq_refl eq_refl eq_refl)).
Defined.

Example set_raw_dataset_keeps_identifier :
  model (base (fst (invoke_all 1
    [ Call_set_raw_dataset (Some Stub.two_rows); Call_predict_dataset "P:";
      Call_sleep 1%Q; Call_call "hello"; Call_set_raw_dataset None ]
    (OpenAIModel Stub.remote0) Stub.w0)))
  = Some "gpt-4".
Proof. reflexivity. Qed.

End PredictOnStub.

(** C7 as stated fails on a local adapter whose model raises: the T5
    adapter is constructed, a dataset of two rows is attached, and the run
    ends with the exception of the first call of [predict]; [predict] has
    been called once, not twice. *)
Module PredictOnBrokenStub.

#[local] Instance broken_libraries : Libraries := Stub.libs Stub.broken.

Lemma predict_dataset_calls_counterexample :
  create_model (Some "google/flan-t5-large")
    (Stub.local "google/flan-t5-large" None) = Ok Stub.t5_broken /\
  process_input "P:" [ ("a", "a"); ("b", "b") ]
    = Ok ([ "P:a"; "P:b" ], [ "a"; "b" ]) /\
  predict_dataset 1
    (set_raw_dataset Stub.t5_broken (Some [ ("a", "a"); ("b", "b") ]))
    "P:" Stub.w0
  = (Raises (LibraryError "RuntimeError" "CUDA error"),
     {| openai_api_key := None; trace := [ EPredict "P:a" ] |}) /\
  predicted [ EPredict "P:a" ] = [ "P:a" ] /\
  length (predicted [ EPredict "P:a" ]) <> length [ "P:a"; "P:b" ].
Proof. repeat split. discriminate. Qed.

End PredictOnBrokenStub.

(** * Further properties *)

(** ** The registry and the dispatch *)

(** Membership in a list written out. *)
Ltac in_list :=
  unfold family_table;
  repeat first [ apply list_elem_of_here | apply list_elem_of_further ].

Section Dispatch.

Context {L : Libraries}.

Lemma create_model_base (m : option string) (kw : kwargs) (a : adapter) :
  create_model m kw = Ok a -> base a = LMMBaseModel_init kw.
Proof.
  unfold create_model, T5Model_init, UL2Model_init, LlamaModel_init,
    VicunaModel_init, OpenAIModel_init.
  repeat match goal with
    | |- context [if ?b then _ else _] => destruct b
    | |- context [obind ?x _] => destruct x; simpl
    end; try discriminate; by intros [= <-].
Qed.

Lemma create_model_class (m : option string) (kw : kwargs) (a : adapter) :
  create_model m kw = Ok a ->
  class_of a =
    if py_eq m "google/flan-t5-large" then ClassT5
    else if py_in m LLAMA_MODELS then ClassLlama
    else if py_in m GPT_MODELS then ClassOpenAI
    else if py_in m VICUNA_MODELS then ClassVicuna
    else ClassUL2.
Proof.
  unfold create_model.
  repeat match goal with
    | |- context [if ?b then _ else _] => destruct b
    end;
    eauto using T5Model_init_class, UL2Model_init_class,
      LlamaModel_init_class, VicunaModel_init_class, OpenAIModel_init_class.
  discriminate.
Qed.

(** An identifier of the family table runs the constructor of its family. *)
Lemma listed_constructor (k : string) (l : list string) (s : string)
    (kw : kwargs) :
  (k, l) ∈ family_table -> s ∈ l ->
  exists c, family_of_class c = k /\
            create_model (Some s) kw = constructor c kw.
Proof.
  unfold family_table. rewrite !elem_of_cons, elem_of_nil.
  intros [[= -> ->] | [[= -> ->] | [[= -> ->] | [[= -> ->]
    | [[= -> ->] | []]]]]] Hs;
    [ exists ClassT5 | exists ClassLlama | exists ClassOpenAI
    | exists ClassVicuna | exists ClassUL2 ];
    (split; [reflexivity |]);
    repeat (apply elem_of_cons in Hs as [-> | Hs]; [reflexivity |]);
    by apply elem_of_nil in Hs.
Qed.

(** An identifier in no list of the family table is not supported. *)
Lemma unlisted_unsupported (s : string) (kw : kwargs) :
  (forall k l, (k, l) ∈ family_table -> s ∉ l) ->
  create_model (Some s) kw = Raise (ValueError "The model is not supported!").
Proof.
  intros Hnone.
  assert (forall k l, (k, l) ∈ family_table -> py_in (Some s) l = false)
    as Hout.
  { intros k l Hk. apply py_in_false. intros (s' & [= <-] & Hs).
    by apply (Hnone k l Hk). }
  unfold create_model.
  assert (py_eq (Some s) "google/flan-t5-large" = false) as ->.
  { specialize (Hout "t5" [T5_MODEL]). simpl in Hout.
    rewrite orb_false_r in Hout. apply Hout. in_list. }
  rewrite (Hout "llama"), (Hout "gpt"), (Hout "vicuna"), (Hout "ul2");
    [reflexivity | in_list ..].
Qed.

(** X1: the listing and the dispatch agree.  An identifier that
    [model_list()] lists under a family is handed by [create_model] to the
    constructor of that family's class (t5: T5Model, llama: LlamaModel, gpt:
    OpenAIModel, vicuna: VicunaModel, ul2: UL2Model), and the adapter built,
    if any, is of that class; an identifier that [model_list()] lists under
    no family makes [create_model] raise the 'not supported' [ValueError]. *)
Theorem model_list_agrees_with_dispatch (s : string) (kw : kwargs) :
  (forall k l, model_list tt !! k = Some l -> s ∈ l ->
     exists c, family_of_class c = k /\
               create_model (Some s) kw = constructor c kw /\
               forall a, create_model (Some s) kw = Ok a -> class_of a = c) /\
  ((forall k l, model_list tt !! k = Some l -> s ∉ l) ->
     create_model (Some s) kw = Raise (ValueError "The model is not supported!")).
Proof.
  split.
  - intros k l Hk Hs. apply MODEL_LIST_entries in Hk.
    destruct (listed_constructor k l s kw Hk Hs) as (c & Hc & Heq).
    exists c. split; [exact Hc |]. split; [exact Heq |].
    intros a Ha. rewrite Heq in Ha.
    destruct c; simpl in Ha;
      eauto using T5Model_init_class, UL2Model_init_class,
        LlamaModel_init_class, VicunaModel_init_class,
        OpenAIModel_init_class.
  - intros Hnone. apply unlisted_unsupported.
    intros k l Hk. apply (Hnone k). by apply MODEL_LIST_entries.
Qed.

(** X2: the class of the adapter depends on the identifier alone: two
    constructions from the same identifier that both complete give adapters
    of the same class, whatever the other keyword arguments are. *)
Theorem class_fixed_by_identifier (m : option string) (kw1 kw2 : kwargs)
    (a1 a2 : adapter) :
  create_model m kw1 = Ok a1 ->
  create_model m kw2 = Ok a2 ->
  class_of a1 = class_of a2.
Proof.
  intros H1 H2.
  by rewrite (create_model_class m kw1 a1 H1), (create_model_class m kw2 a2 H2).
Qed.

(** X3: a facade that [LLMModel.__init__] builds holds the identifier twice,
    in its own [model] field and in its adapter's, and they agree; the
    adapter has [max_new_tokens] as given or 20, no dataset attached, and
    the identifier is a string that [model_list()] lists. *)
Theorem LLMModel_init_invariant (kw : kwargs) (f : LLMModel) :
  LLMModel_init kw = Ok f ->
  facade_model f = kw_model kw /\
  model (base (infer_model f)) = facade_model f /\
  max_new_tokens (base (infer_model f))
    = default 20%Z (kw_max_new_tokens kw) /\
  raw_dataset (base (infer_model f)) = None /\
  exists s k l, facade_model f = Some s /\
                model_list tt !! k = Some l /\ s ∈ l.
Proof.
  unfold LLMModel_init.
  destruct (create_model (kw_model kw) kw) as [a | e] eqn:Hc;
    [| discriminate].
  intros [= <-]. simpl.
  rewrite (create_model_base _ _ _ Hc). simpl.
  repeat (split; [reflexivity |]).
  revert Hc. unfold create_model.
  destruct (py_eq _ _) eqn:H0.
  { intros _. apply py_eq_true in H0. exists "google/flan-t5-large", "t5",
      [T5_MODEL]. rewrite H0. split; [done |].
    split; [apply MODEL_LIST_entries; in_list | in_list]. }
  assert (forall k l, (k, l) ∈ family_table -> py_in (kw_model kw) l = true ->
            exists s k l, kw_model kw = Some s /\
                          model_list tt !! k = Some l /\ s ∈ l) as Hin.
  { intros k l Hk (s & Hs & Hl)%py_in_true. exists s, k, l.
    split; [exact Hs |]. split; [by apply MODEL_LIST_entries | exact Hl]. }
  destruct (py_in _ LLAMA_MODELS) eqn:H1;
    [intros _; apply (Hin "llama" LLAMA_MODELS);
     [in_list | exact H1] |].
  destruct (py_in _ GPT_MODELS) eqn:H2;
    [intros _; apply (Hin "gpt" GPT_MODELS);
     [in_list | exact H2] |].
  destruct (py_in _ VICUNA_MODELS) eqn:H3;
    [intros _; apply (Hin "vicuna" VICUNA_MODELS);
     [in_list | exact H3] |].
  destruct (py_in _ UL2_MODELS) eqn:H4;
    [intros _; apply (Hin "ul2" UL2_MODELS);
     [in_list | exact H4] |].
  discriminate.
Qed.

End Dispatch.

(** ** The remote adapter's [predict] *)

Section RemotePredict.

Context {L : Libraries}.

(** The remote [predict], case by case on what the chat call gives. *)
Lemma OpenAIModel_predict_cases (fuel : nat) (self : RemoteModel)
    (input_text : string) (w : world) :
  let key := openai_key self in
  let req := request_of self input_text in
  let h := trace w ++ [EChat key req] in
  OpenAIModel_predict (S fuel) self input_text w =
    match ChatCompletion_create (trace w) key req with
    | Ok {| choices := c :: _ |} =>
        (Returns (Some (content c)), {| openai_api_key := key; trace := h |})
    | Ok {| choices := [] |} =>
        after_except self (IndexError "list index out of range") h
    | Raise e => after_except self e h
    end.
Proof.
  intros key req h.
  unfold OpenAIModel_predict, mbind, try_except, set_api_key.
  unfold while_true, OpenAIModel_predict_body, mbind, chat_create. simpl.
  fold key. change {| req_model := _; req_messages := _;
                      req_temperature := _ |} with req.
  destruct (ChatCompletion_create (trace w) key req) as [[[| c cs]] | e];
    simpl; try reflexivity;
    unfold after_except, OpenAIModel_sleep, mbind, emit, lift; simpl;
    subst h; rewrite <- !app_assoc; simpl;
    by destruct (time_sleep _).
Qed.

Lemma after_except_events (self : RemoteModel) (e : exn) (h : list event) :
  openai_api_key (snd (after_except self e h)) = openai_key self /\
  count_events is_chat (trace (snd (after_except self e h)))
    = count_events is_chat h /\
  exists d, trace (snd (after_except self e h))
            = h ++ [ EPrint (exn_str e); EPrint "Retrying..."; ESleep d ].
Proof.
  unfold after_except. simpl. split; [reflexivity |]. split.
  - rewrite !count_events_app. unfold count_events. simpl. lia.
  - eexists. rewrite <- app_assoc. reflexivity.
Qed.

(** X4: when the chat call answers with at least one choice, the remote
    [predict] returns the content of the first choice, whatever the other
    choices and the roles are; it has set [openai.api_key] to the adapter's
    credential and made the one chat call, and has printed nothing and not
    slept. *)
Theorem OpenAIModel_predict_first_choice (fuel : nat) (self : RemoteModel)
    (input_text : string) (w : world) (c : message) (cs : list message) :
  ChatCompletion_create (trace w) (openai_key self)
    (request_of self input_text) = Ok {| choices := c :: cs |} ->
  OpenAIModel_predict (S fuel) self input_text w
  = (Returns (Some (content c)),
     {| openai_api_key := openai_key self;
        trace := trace w ++ [ EChat (openai_key self)
                                (request_of self input_text) ] |}).
Proof.
  intros H. rewrite OpenAIModel_predict_cases. cbv zeta. by rewrite H.
Qed.

(** X5: a response without any choice is handled like a failed call: the
    [IndexError] of [response['choices'][0]] is caught by the same [except]
    block, so [predict] prints 'list index out of range' and 'Retrying...',
    calls [time.sleep] once and, when that returns, returns [None]. *)
Theorem OpenAIModel_predict_no_choice (fuel : nat) (self : RemoteModel)
    (input_text : string) (w : world) :
  (forall h, (0 <= random_random h)%Q) ->
  (forall d, (0 <= d)%Q -> time_sleep d = Ok tt) ->
  (0%Q <= sleep_time self)%num ->
  ChatCompletion_create (trace w) (openai_key self)
    (request_of self input_text) = Ok {| choices := [] |} ->
  exists d,
    (sleep_time self <= d)%num /\
    OpenAIModel_predict (S fuel) self input_text w
    = (Returns None,
       {| openai_api_key := openai_key self;
          trace := trace w ++ [ EChat (openai_key self)
                                  (request_of self input_text);
                                EPrint "list index out of range";
                                EPrint "Retrying...";
                                ESleep d ] |}).
Proof.
  intros Hrand Hsleep Hdelay H.
  rewrite OpenAIModel_predict_cases. cbv zeta. rewrite H.
  unfold after_except. simpl exn_str.
  match goal with |- context [ESleep ?x] => exists x end.
  split; [by apply number_le_add |].
  rewrite (sleep_accepted _ _ Hsleep Hdelay (Hrand _)).
  by rewrite <- !app_assoc.
Qed.

(** X6: whatever the chat service does, one call of the remote [predict]
    calls it exactly once, with the adapter's own credential whatever
    [openai.api_key] held before, and leaves [openai.api_key] set to that
    credential; the [while True] loop never makes a second pass, so that a
    larger bound changes nothing. *)
Theorem OpenAIModel_predict_one_chat_call (fuel : nat) (self : RemoteModel)
    (input_text : string) (w : world) :
  let w' := snd (OpenAIModel_predict (S fuel) self input_text w) in
  count_events is_chat (trace w') = S (count_events is_chat (trace w)) /\
  (exists rest,
     trace w' = trace w ++ EChat (openai_key self)
                             (request_of self input_text) :: rest) /\
  openai_api_key w' = openai_key self /\
  OpenAIModel_predict (S fuel) self input_text w
    = OpenAIModel_predict 1 self input_text w.
Proof.
  intros w'. subst w'.
  rewrite (OpenAIModel_predict_cases fuel), (OpenAIModel_predict_cases 0).
  cbv zeta.
  set (h := trace w ++ [EChat (openai_key self) (request_of self input_text)]).
  assert (count_events is_chat h = S (count_events is_chat (trace w))) as Hh.
  { subst h. rewrite count_events_app. unfold count_events. simpl. lia. }
  assert (forall e,
    count_events is_chat (trace (snd (after_except self e h)))
      = S (count_events is_chat (trace w)) /\
    (exists rest, trace (snd (after_except self e h))
       = trace w ++ EChat (openai_key self) (request_of self input_text)
                    :: rest) /\
    openai_api_key (snd (after_except self e h)) = openai_key self) as Hexc.
  { intros e. destruct (after_except_events self e h) as (Hk & Hc & d & Ht).
    split; [by rewrite Hc |]. split; [| exact Hk].
    eexists. rewrite Ht. subst h. rewrite <- app_assoc. reflexivity. }
  destruct (ChatCompletion_create _ _ _) as [[[| c cs]] | e].
  - destruct (Hexc (IndexError "list index out of range")) as (? & ? & ?).
    done.
  - simpl. split; [exact Hh |]. split; [by exists [] |]. done.
  - destruct (Hexc e) as (? & ? & ?). done.
Qed.

Lemma after_except_returns (self : RemoteModel) (e : exn) (h : list event) :
  (forall h, (0 <= random_random h)%Q) ->
  (forall d, (0 <= d)%Q -> time_sleep d = Ok tt) ->
  (0%Q <= sleep_time self)%num ->
  fst (after_except self e h) = Returns None.
Proof.
  intros Hrand Hsleep Hdelay. unfold after_except. cbv zeta.
  by rewrite (sleep_accepted _ _ Hsleep Hdelay (Hrand _)).
Qed.

Lemma OpenAIModel_predict_returns (fuel : nat) (self : RemoteModel)
    (input_text : string) (w : world) :
  (forall h, (0 <= random_random h)%Q) ->
  (forall d, (0 <= d)%Q -> time_sleep d = Ok tt) ->
  (0%Q <= sleep_time self)%num ->
  exists out,
    fst (OpenAIModel_predict (S fuel) self input_text w) = Returns out.
Proof.
  intros Hrand Hsleep Hdelay.
  rewrite OpenAIModel_predict_cases. cbv zeta.
  destruct (ChatCompletion_create _ _ _) as [[[| c cs]] | e];
    [ exists None; by apply after_except_returns
    | by eexists
    | exists None; by apply after_except_returns ].
Qed.

(** X7: with a retry delay that is not negative, the remote [predict]
    returns on every text and in every world, called directly or through
    the dispatch: no failure of the chat service reaches the caller, whether
    the call raises or answers without a choice. *)
Theorem OpenAIModel_predict_never_raises (fuel : nat) (self : RemoteModel)
    (input_text : string) (w : world) :
  (forall h, (0 <= random_random h)%Q) ->
  (forall d, (0 <= d)%Q -> time_sleep d = Ok tt) ->
  (0%Q <= sleep_time self)%num ->
  (exists out,
     fst (OpenAIModel_predict (S fuel) self input_text w) = Returns out) /\
  (exists out,
     fst (predict (S fuel) (OpenAIModel self) input_text w) = Returns out).
Proof.
  intros Hrand Hsleep Hdelay.
  split; [by apply OpenAIModel_predict_returns |].
  unfold predict, mbind. simpl.
  by apply OpenAIModel_predict_returns.
Qed.

(** X8: the remote [predict] reads the model identifier, the credential, the
    temperature and the retry delay, and nothing else of its object: two
    remote adapters built from keyword arguments that agree on those four
    behave alike on every text, whatever [max_new_tokens] and the other
    keyword arguments are, and whatever dataset is attached. *)
Theorem OpenAIModel_predict_ignores_max_new_tokens (kw1 kw2 : kwargs)
    (a1 a2 : adapter) (rd : option Dataset) (fuel : nat)
    (input_text : string) (w : world) :
  OpenAIModel_init kw1 = Ok a1 ->
  OpenAIModel_init kw2 = Ok a2 ->
  kw_model kw1 = kw_model kw2 ->
  kw_openai_key kw1 = kw_openai_key kw2 ->
  kw_temperature kw1 = kw_temperature kw2 ->
  kw_sleep_time kw1 = kw_sleep_time kw2 ->
  predict fuel a1 input_text w
    = predict fuel (set_raw_dataset a2 rd) input_text w.
Proof.
  rewrite !OpenAIModel_init_cases. cbv zeta.
  intros H1 H2 Hm Hk Ht Hs. rewrite <- Hk, <- Ht, <- Hs in H2.
  destruct (negb _); [discriminate |].
  do 2 (destruct (gt0 _); [discriminate |]).
  injection H1 as <-. injection H2 as <-.
  unfold predict, OpenAIModel_predict, OpenAIModel_predict_body,
    OpenAIModel_sleep. simpl. by rewrite Hm.
Qed.

End RemotePredict.

(** ** The local adapters' [predict] *)

Section LocalPredict.

Context {L : Libraries}.

(** A call of [predict] on a local object records the call, runs the body
    and hands on what the body gives, value or exception. *)
Lemma predict_local (fuel : nat) (a : adapter) (input_text : string)
    (w : world) (r : outcome string) :
  local_predict a input_text = Some r ->
  predict fuel a input_text w
  = (match r with Ok out => Returns (Some out) | Raise e => Raises e end,
     {| openai_api_key := openai_api_key w;
        trace := trace w ++ [EPredict input_text] |}).
Proof.
  destruct a; simpl; try discriminate; intros [= <-];
    unfold predict, mbind, lift, mret; simpl;
    match goal with |- context [to_ending ?x] => by destruct x end.
Qed.

(** X9: the four local adapters catch nothing: when the tokenizer, the
    move to the device or the generation raises an exception, [predict]
    raises that same exception, and the call has no other effect (nothing
    printed, no sleep, no chat call, [openai.api_key] untouched). *)
Theorem local_predict_failure_propagates (fuel : nat) (s : LocalModel)
    (a : adapter) (input_text : string) (e : exn) (w : world) :
  a ∈ [ T5Model s; UL2Model s; LlamaModel s; VicunaModel s ] ->
  (input_ids (tokenizer s) input_text = Raise e \/
   (exists ids, input_ids (tokenizer s) input_text = Ok ids /\
                to_cuda ids = Raise e) \/
   (exists ids ids', input_ids (tokenizer s) input_text = Ok ids /\
                     to_cuda ids = Ok ids' /\
                     generate (pipe s) ids' (max_new_tokens (lm_base s))
                       = Raise e)) ->
  predict fuel a input_text w
  = (Raises e,
     {| openai_api_key := openai_api_key w;
        trace := trace w ++ [EPredict input_text] |}).
Proof.
  intros Ha Hfail.
  apply (predict_local fuel a input_text w (Raise e)).
  assert (T5Model_predict s input_text = Raise e /\
          UL2Model_predict s input_text = Raise e /\
          LlamaModel_predict s input_text = Raise e /\
          VicunaModel_predict s input_text = Raise e) as (H1 & H2 & H3 & H4).
  { unfold T5Model_predict, UL2Model_predict, LlamaModel_predict,
      VicunaModel_predict.
    destruct Hfail as [-> | [(ids & -> & Hc) | (ids & ids' & -> & Hc & Hg)]];
      simpl; [done | by rewrite Hc | by rewrite Hc; simpl; rewrite Hg]. }
  rewrite !elem_of_cons, elem_of_nil in Ha.
  destruct Ha as [-> | [-> | [-> | [-> | []]]]]; simpl; congruence.
Qed.

(** X10: a generation that yields no sequence makes [predict] raise an
    [IndexError] at [outputs[0]] in [T5Model], [UL2Model] and [VicunaModel],
    the tokenizer's [decode] not being called.  [LlamaModel] does not index
    the generation: it hands the empty batch to [batch_decode] and indexes
    what that returns, so that it raises what [batch_decode] raises, raises
    the [IndexError] of a list when [batch_decode] returns no text, and
    returns the first text otherwise. *)
Theorem local_predict_empty_generation (s : LocalModel)
    (input_text : string) (ids ids' : Tensor) :
  input_ids (tokenizer s) input_text = Ok ids ->
  to_cuda ids = Ok ids' ->
  generate (pipe s) ids' (max_new_tokens (lm_base s)) = Ok [] ->
  (exists msg,
     T5Model_predict s input_text = Raise (IndexError msg) /\
     UL2Model_predict s input_text = Raise (IndexError msg) /\
     VicunaModel_predict s input_text = Raise (IndexError msg)) /\
  LlamaModel_predict s input_text
    = obind (batch_decode (tokenizer s) []) item0 /\
  (forall e, batch_decode (tokenizer s) [] = Raise e ->
     LlamaModel_predict s input_text = Raise e) /\
  (batch_decode (tokenizer s) [] = Ok [] ->
     LlamaModel_predict s input_text
       = Raise (IndexError "list index out of range")) /\
  (forall text texts, batch_decode (tokenizer s) [] = Ok (text :: texts) ->
     LlamaModel_predict s input_text = Ok text).
Proof.
  intros Hi Hc Hg.
  unfold T5Model_predict, UL2Model_predict, VicunaModel_predict,
    LlamaModel_predict.
  rewrite Hi. simpl. rewrite Hc. simpl. rewrite Hg. simpl.
  split; [by eexists |].
  split; [by destruct (batch_decode _ _) as [[| text texts] | e] |].
  split; [by intros e -> |]. split; [by intros -> |].
  by intros text texts ->.
Qed.

(** X11: [VicunaModel.predict] is the same function of the tokenizer, the
    model and [max_new_tokens] as [T5Model.predict] and [UL2Model.predict]:
    on objects that agree on the three, the three methods give the same
    value or raise the same exception on every text, also through the
    dispatch. *)
Theorem Vicuna_T5_UL2_predict_equal (s1 s2 s3 : LocalModel)
    (input_text : string) :
  tokenizer s1 = tokenizer s2 -> tokenizer s1 = tokenizer s3 ->
  pipe s1 = pipe s2 -> pipe s1 = pipe s3 ->
  max_new_tokens (lm_base s1) = max_new_tokens (lm_base s2) ->
  max_new_tokens (lm_base s1) = max_new_tokens (lm_base s3) ->
  VicunaModel_predict s1 input_text = T5Model_predict s2 input_text /\
  VicunaModel_predict s1 input_text = UL2Model_predict s3 input_text /\
  (forall fuel w,
     predict fuel (VicunaModel s1) input_text w
       = predict fuel (T5Model s2) input_text w /\
     predict fuel (VicunaModel s1) input_text w
       = predict fuel (UL2Model s3) input_text w).
Proof.
  intros Ht2 Ht3 Hp2 Hp3 Hm2 Hm3.
  assert (VicunaModel_predict s1 input_text = T5Model_predict s2 input_text)
    as H2.
  { unfold VicunaModel_predict, T5Model_predict. by rewrite Ht2, Hp2, Hm2. }
  assert (VicunaModel_predict s1 input_text = UL2Model_predict s3 input_text)
    as H3.
  { unfold VicunaModel_predict, UL2Model_predict. by rewrite Ht3, Hp3, Hm3. }
  split; [exact H2 |]. split; [exact H3 |].
  intros fuel w. unfold predict. by rewrite <- H2, <- H3.
Qed.

(** ** The scoring helper on local adapters *)

Lemma predict_loop_local (fuel : nat) (a : adapter) (f : string -> string)
    (input_texts : list string) (raw_preds : list (option string))
    (w : world) :
  (forall t, t ∈ input_texts -> local_predict a t = Some (Ok (f t))) ->
  predict_loop fuel a input_texts raw_preds w
  = (Returns (raw_preds ++ map (fun t => Some (f t)) input_texts),
     {| openai_api_key := openai_api_key w;
        trace := trace w ++ map EPredict input_texts |}).
Proof.
  revert raw_preds w.
  induction input_texts as [| t rest IH]; intros raw_preds w Hok; simpl.
  - rewrite !app_nil_r. by destruct w.
  - unfold mbind.
    rewrite (predict_local fuel a t w (Ok (f t))) by (apply Hok; by left).
    rewrite IH by (intros t' Hin; apply Hok; by right).
    simpl. by rewrite <- !app_assoc.
Qed.

Lemma predict_loop_local_stops (fuel : nat) (a : adapter)
    (f : string -> string) (before after : list string) (t : string)
    (e : exn) (raw_preds : list (option string)) (w : world) :
  (forall x, x ∈ before -> local_predict a x = Some (Ok (f x))) ->
  local_predict a t = Some (Raise e) ->
  predict_loop fuel a (before ++ t :: after) raw_preds w
  = (Raises e,
     {| openai_api_key := openai_api_key w;
        trace := trace w ++ map EPredict (before ++ [t]) |}).
Proof.
  revert raw_preds w.
  induction before as [| x rest IH]; intros raw_preds w Hok Hbad; simpl.
  - unfold mbind. by rewrite (predict_local fuel a t w (Raise e)).
  - unfold mbind.
    rewrite (predict_local fuel a x w (Ok (f x))) by (apply Hok; by left).
    rewrite IH by (try (intros x' Hin; apply Hok; by right); done).
    simpl. by rewrite <- !app_assoc.
Qed.

(** X12: on a local adapter with a dataset attached, when [predict] returns
    [f t] on every processed input [t], [predict_dataset] calls [predict]
    on the inputs in order and nothing else of the world changes; it hands
    the predictions, in input order, to [process_pred] with the dataset's
    name, then the result, with the labels of [process_input], to [eval],
    and returns the score or raises what either of the two raises. *)
Theorem predict_dataset_local (fuel : nat) (a : adapter) (prompt : Prompt)
    (ds : Dataset) (input_texts : list string) (labels : Labels)
    (f : string -> string) (w : world) :
  raw_dataset (base a) = Some ds ->
  process_input prompt ds = Ok (input_texts, labels) ->
  (forall t, t ∈ input_texts -> local_predict a t = Some (Ok (f t))) ->
  predict_dataset fuel a prompt w
  = (to_ending
       (obind (process_pred (dataset_name ds)
                 (map (fun t => Some (f t)) input_texts))
          (fun preds => eval ds preds labels)),
     {| openai_api_key := openai_api_key w;
        trace := trace w ++ map EPredict input_texts |}).
Proof.
  intros Hds Hin Hok. unfold predict_dataset. rewrite Hds.
  unfold mbind at 1. unfold lift at 1. rewrite Hin. simpl.
  unfold mbind at 1. rewrite (predict_loop_local fuel a f) by exact Hok.
  simpl. unfold mbind, lift, mret.
  destruct (process_pred _ _); simpl; [| done].
  by destruct (eval _ _ _).
Qed.

(** X13: on a local adapter, the first input on which [predict] raises ends
    [predict_dataset]: the exception reaches the caller, the inputs after
    it are not predicted, and [process_pred] and [eval] are not reached. *)
Theorem predict_dataset_local_stops (fuel : nat) (a : adapter)
    (prompt : Prompt) (ds : Dataset) (before after : list string)
    (t : string) (e : exn) (labels : Labels) (f : string -> string)
    (w : world) :
  raw_dataset (base a) = Some ds ->
  process_input prompt ds = Ok (before ++ t :: after, labels) ->
  (forall x, x ∈ before -> local_predict a x = Some (Ok (f x))) ->
  local_predict a t = Some (Raise e) ->
  predict_dataset fuel a prompt w
  = (Raises e,
     {| openai_api_key := openai_api_key w;
        trace := trace w ++ map EPredict (before ++ [t]) |}).
Proof.
  intros Hds Hin Hok Hbad. unfold predict_dataset. rewrite Hds.
  unfold mbind at 1. unfold lift at 1. rewrite Hin. simpl.
  unfold mbind at 1.
  by rewrite (predict_loop_local_stops fuel a f before after t e).
Qed.

End LocalPredict.

(** ** The scoring helper on the remote adapter, and the other methods *)

Section RemoteScoring.

Context {L : Libraries}.

Lemma predict_remote_step (fuel : nat) (s : RemoteModel)
    (input_text : string) (w : world) :
  (forall h, (0 <= random_random h)%Q) ->
  (forall d, (0 <= d)%Q -> time_sleep d = Ok tt) ->
  (0%Q <= sleep_time s)%num ->
  exists w',
    predict (S fuel) (OpenAIModel s) input_text w
      = (Returns (remote_answer s input_text
                    (trace w ++ [EPredict input_text])), w') /\
    predicted (trace w') = predicted (trace w) ++ [input_text] /\
    count_events is_chat (trace w') = S (count_events is_chat (trace w)).
Proof.
  intros Hrand Hsleep Hdelay.
  pose proof (predict_predicted (S fuel) (OpenAIModel s) input_text w) as Hp.
  unfold predict, mbind in *. simpl in *.
  set (w1 := {| openai_api_key := openai_api_key w;
                trace := trace w ++ [EPredict input_text] |}) in *.
  assert (fst (OpenAIModel_predict (S fuel) s input_text w1)
          = Returns (remote_answer s input_text (trace w1))) as Hout.
  { rewrite OpenAIModel_predict_cases. cbv zeta. unfold remote_answer.
    destruct (ChatCompletion_create _ _ _) as [[[| c cs]] | e];
      [ by apply after_except_returns
      | reflexivity
      | by apply after_except_returns ]. }
  assert (count_events is_chat
            (trace (snd (OpenAIModel_predict (S fuel) s input_text w1)))
          = S (count_events is_chat (trace w))) as Hcount.
  { rewrite OpenAIModel_predict_cases. cbv zeta.
    assert (count_events is_chat
              (trace w1 ++ [EChat (openai_key s) (request_of s input_text)])
            = S (count_events is_chat (trace w))) as Hh.
    { subst w1. simpl. rewrite !count_events_app. unfold count_events.
      simpl. lia. }
    destruct (ChatCompletion_create _ _ _) as [[[| c cs]] | e];
      [ | exact Hh | ];
      by rewrite (proj1 (proj2 (after_except_events _ _ _))). }
  destruct (OpenAIModel_predict (S fuel) s input_text w1) as [r w'].
  simpl in *. subst r. by exists w'.
Qed.

Lemma predict_loop_remote (fuel : nat) (s : RemoteModel)
    (input_texts : list string) (raw_preds : list (option string))
    (w : world) :
  (forall h, (0 <= random_random h)%Q) ->
  (forall d, (0 <= d)%Q -> time_sleep d = Ok tt) ->
  (0%Q <= sleep_time s)%num ->
  exists w',
    predict_loop (S fuel) (OpenAIModel s) input_texts raw_preds w
      = (Returns (raw_preds ++ remote_predictions (S fuel) s input_texts w),
         w') /\
    predict_endings (S fuel) (OpenAIModel s) input_texts w
      = map Returns (remote_predictions (S fuel) s input_texts w) /\
    predicted (trace w') = predicted (trace w) ++ input_texts /\
    count_events is_chat (trace w')
      = count_events is_chat (trace w) + length input_texts.
Proof.
  intros Hrand Hsleep Hdelay. revert raw_preds w.
  induction input_texts as [| t rest IH]; intros raw_preds w.
  - exists w. simpl. rewrite !app_nil_r. split; [done |].
    split; [done |]. split; [done | lia].
  - destruct (predict_remote_step fuel s t w Hrand Hsleep Hdelay)
      as (w1 & Hstep & Hp1 & Hc1).
    destruct (IH (raw_preds ++ [remote_answer s t (trace w ++ [EPredict t])])
                w1) as (w' & Hl & He & Hp & Hc).
    exists w'. cbn [predict_loop remote_predictions predict_endings].
    unfold mbind. rewrite Hstep. cbn [fst snd]. rewrite Hl, He.
    rewrite <- app_assoc. split; [done |]. split; [done |].
    split; [by rewrite Hp, Hp1, <- app_assoc |].
    rewrite Hc, Hc1. simpl. lia.
Qed.

Lemma remote_predictions_length (fuel : nat) (s : RemoteModel)
    (input_texts : list string) (w : world) :
  length (remote_predictions fuel s input_texts w) = length input_texts.
Proof.
  revert w. induction input_texts as [| t rest IH]; intros w; simpl;
    [done | by rewrite IH].
Qed.

(** X14: on a remote adapter with a retry delay that is not negative and a
    dataset attached, no failure of the chat service ends
    [predict_dataset]: [predict] is called on every processed input, in
    order, with one chat call each, and every call returns.  What the calls
    return, in input order, is the list that reaches [process_pred]: for
    each input the content of the first choice of the answer to its
    request, or [None] where the service raised or answered without a
    choice.  The run returns the score of [eval], or raises what
    [process_pred] or [eval] raises. *)
Theorem predict_dataset_remote (fuel : nat) (s : RemoteModel)
    (prompt : Prompt) (ds : Dataset) (input_texts : list string)
    (labels : Labels) (w : world) :
  (forall h, (0 <= random_random h)%Q) ->
  (forall d, (0 <= d)%Q -> time_sleep d = Ok tt) ->
  (0%Q <= sleep_time s)%num ->
  raw_dataset (rm_base s) = Some ds ->
  process_input prompt ds = Ok (input_texts, labels) ->
  exists w',
    predict_endings (S fuel) (OpenAIModel s) input_texts w
      = map Returns (remote_predictions (S fuel) s input_texts w) /\
    length (remote_predictions (S fuel) s input_texts w)
      = length input_texts /\
    predict_dataset (S fuel) (OpenAIModel s) prompt w
    = (to_ending
         (obind (process_pred (dataset_name ds)
                   (remote_predictions (S fuel) s input_texts w))
            (fun preds => eval ds preds labels)), w') /\
    predicted (trace w') = predicted (trace w) ++ input_texts /\
    count_events is_chat (trace w')
      = count_events is_chat (trace w) + length input_texts.
Proof.
  intros Hrand Hsleep Hdelay Hds Hin.
  destruct (predict_loop_remote fuel s input_texts [] w Hrand Hsleep Hdelay)
    as (w' & Hl & He & Hp & Hc).
  exists w'. split; [exact He |].
  split; [apply remote_predictions_length |].
  unfold predict_dataset. cbn [base]. rewrite Hds.
  unfold mbind at 1. unfold lift at 1. rewrite Hin. simpl.
  unfold mbind at 1. rewrite Hl. simpl.
  unfold mbind, lift, mret.
  split; [| by split].
  destruct (process_pred _ _); simpl; [| done].
  by destruct (eval _ _ _).
Qed.

(** X15: attaching a dataset changes no prediction: on every adapter,
    [predict] and [__call__] behave with a dataset attached, replaced or
    removed exactly as without. *)
Theorem predict_ignores_raw_dataset (fuel : nat) (a : adapter)
    (rd : option Dataset) (input_text : string) (w : world) :
  predict fuel (set_raw_dataset a rd) input_text w
    = predict fuel a input_text w /\
  LMMBaseModel_call fuel (set_raw_dataset a rd) input_text w
    = LMMBaseModel_call fuel a input_text w.
Proof.
  unfold LMMBaseModel_call.
  assert (predict fuel (set_raw_dataset a rd) input_text w
          = predict fuel a input_text w) as H; [| by split].
  by destruct a.
Qed.

(** X16: of two calls of [set_raw_dataset] the later one wins, and
    [predict_dataset] scores the dataset attached last; attaching [None]
    after a dataset brings the [AssertionError] back. *)
Theorem set_raw_dataset_last_wins (fuel : nat) (a : adapter)
    (rd1 rd2 : option Dataset) (prompt : Prompt) (w : world) :
  set_raw_dataset (set_raw_dataset a rd1) rd2 = set_raw_dataset a rd2 /\
  predict_dataset fuel (set_raw_dataset (set_raw_dataset a rd1) rd2) prompt w
    = predict_dataset fuel (set_raw_dataset a rd2) prompt w /\
  predict_dataset fuel (set_raw_dataset (set_raw_dataset a rd1) None) prompt w
    = (Raises AssertionError, w).
Proof.
  assert (forall r, set_raw_dataset (set_raw_dataset a rd1) r
                    = set_raw_dataset a r) as H by (intros r; by destruct a).
  split; [apply H |]. split; [by rewrite H |].
  rewrite H. unfold predict_dataset. by destruct a.
Qed.


End RemoteScoring.

(** ** The command-line entry *)

Section Main.

Context {L : Libraries}.

Lemma parse_args_not_remote (a : argv) (f : LLMModel) :
  LLMModel_init (parse_args a) = Ok f ->
  exists r, local_predict (infer_model f) demo_sentence = Some r.
Proof.
  unfold LLMModel_init.
  destruct (create_model _ _) as [ad | e] eqn:Hc; [| discriminate].
  intros [= <-]. simpl.
  pose proof (create_model_class _ _ _ Hc) as Hclass.
  destruct ad; simpl; try (by eexists).
  exfalso. revert Hc Hclass. unfold create_model. simpl class_of.
  repeat match goal with
    | |- context [if ?b then _ else _] => destruct b
    end; try discriminate.
Qed.

(** X18: the command-line entry passes no credential, so it cannot run a
    GPT model: with a GPT identifier it ends with the [ValueError] that asks
    for [openai_key], before anything is printed; with an identifier that
    is in no list it ends with the 'not supported' [ValueError]; and
    whatever the arguments are, it never calls the chat service and never
    sleeps. *)
Theorem main_never_remote (fuel : nat) (a : argv) (w : world) :
  (one_of (kw_model (parse_args a)) GPT_MODELS ->
     main fuel a w
     = (Raises (ValueError "openai_key is required for openai model!"), w)) /\
  ((forall k l, model_list tt !! k = Some l ->
      default "llama2-13b-chat" (arg_model a) ∉ l) ->
     main fuel a w
     = (Raises (ValueError "The model is not supported!"), w)) /\
  count_events is_chat (trace (snd (main fuel a w)))
    = count_events is_chat (trace w) /\
  count_events is_sleep (trace (snd (main fuel a w)))
    = count_events is_sleep (trace w).
Proof.
  split; [| split].
  - intros (s & [= <-] & Hs). unfold main, mbind, lift, LLMModel_init.
    simpl kw_model.
    assert (create_model (Some (default "llama2-13b-chat" (arg_model a)))
              (parse_args a)
            = OpenAIModel_init (parse_args a)) as ->; [| reflexivity].
    revert Hs. generalize (default "llama2-13b-chat" (arg_model a)).
    intros s Hs.
    repeat (apply elem_of_cons in Hs as [-> | Hs]; [reflexivity |]).
    by apply elem_of_nil in Hs.
  - intros Hnone. unfold main, mbind, lift, LLMModel_init. simpl kw_model.
    rewrite unlisted_unsupported; [reflexivity |].
    intros k l Hk. apply (Hnone k). by apply MODEL_LIST_entries.
  - unfold main, mbind, lift.
    destruct (LLMModel_init (parse_args a)) as [f | e] eqn:Hf; simpl;
      [| done].
    destruct (parse_args_not_remote a f Hf) as (r & Hr).
    unfold LLMModel_call. rewrite (predict_local fuel _ _ w r Hr).
    destruct r; simpl; rewrite ?count_events_app; unfold count_events;
      simpl; split; lia.
Qed.

End Main.

(** ** The further properties, run on the stub libraries *)

Module FurtherOnStub.

#[local] Instance further_libraries : Libraries := Stub.libs Stub.echo.

Lemma stub_random_nonneg : forall h : list event, (0 <= random_random h)%Q.
Proof. intros h. vm_compute. discriminate. Qed.


Lemma stub_sleep_accepts : forall d, (0 <= d)%Q -> time_sleep d = Ok tt.
Proof. intros d Hd. simpl. by rewrite (proj2 (Qle_bool_iff 0 d) Hd). Qed.

Lemma zero_nonneg : (0%Q <= 0%Q)%num.
Proof. vm_compute. discriminate. Qed.

(** X1 at 'gpt-4', listed under gpt, and at 'mistral-7b', listed nowhere. *)
Lemma model_list_agrees_with_dispatch_witness :
  (model_list tt !! "gpt" = Some GPT_MODELS /\ "gpt-4" ∈ GPT_MODELS /\
   exists c, family_of_class c = "gpt" /\
     create_model (Some "gpt-4") Stub.no_kwargs
       = constructor c Stub.no_kwargs /\
     forall a, create_model (Some "gpt-4") Stub.no_kwargs = Ok a ->
               class_of a = c) /\
  ((forall k l, model_list tt !! k = Some l -> "mistral-7b" ∉ l) /\
   create_model (Some "mistral-7b") Stub.no_kwargs
     = Raise (ValueError "The model is not supported!")).
Proof.
  assert (model_list tt !! "gpt" = Some GPT_MODELS) as Hgpt
    by (vm_compute; reflexivity).
  assert ("gpt-4" ∈ GPT_MODELS) as Hin by compute_done.
  assert (forall k l, model_list tt !! k = Some l -> "mistral-7b" ∉ l)
    as Hout.
  { intros k l Hk. apply MODEL_LIST_entries in Hk. unfold family_table in Hk.
    rewrite !elem_of_cons, elem_of_nil in Hk.
    destruct Hk as [[= -> ->] | [[= -> ->] | [[= -> ->] | [[= -> ->]
      | [[= -> ->] | []]]]]]; compute_done. }
  split.
  - split; [exact Hgpt |]. split; [exact Hin |].
    exact (proj1 (model_list_agrees_with_dispatch "gpt-4" Stub.no_kwargs)
             "gpt" GPT_MODELS Hgpt Hin).
  - split; [exact Hout |].
    exact (proj2 (model_list_agrees_with_dispatch "mistral-7b" Stub.no_kwargs)
             Hout).
Defined.

(** X2 at the T5 identifier, without and with a [model_dir]. *)
Lemma class_fixed_by_identifier_witness :
  create_model (Some "google/flan-t5-large")
    (Stub.local "google/flan-t5-large" None)
  = Ok (T5Model (Stub.local_with "google/flan-t5-large")) /\
  create_model (Some "google/flan-t5-large") (Stub.local "other" (Some "/w"))
  = Ok (T5Model {| lm_base := LMMBaseModel_init
                                (Stub.local "other" (Some "/w"));
                   tokenizer := Stub.tok; pipe := Stub.echo |}) /\
  class_of (T5Model (Stub.local_with "google/flan-t5-large"))
  = class_of (T5Model {| lm_base := LMMBaseModel_init
                                      (Stub.local "other" (Some "/w"));
                         tokenizer := Stub.tok; pipe := Stub.echo |}).
Proof.
  split; [reflexivity |]. split; [reflexivity |].
  exact (class_fixed_by_identifier (Some "google/flan-t5-large")
           (Stub.local "google/flan-t5-large" None)
           (Stub.local "other" (Some "/w")) _ _ eq_refl eq_refl).
Defined.

(** X3 at the remote configuration with a retry delay of 0. *)
Lemma LLMModel_init_invariant_witness :
  LLMModel_init (Stub.remote None (Some 0%Q))
  = Ok {| facade_model := Some "gpt-4";
          infer_model := OpenAIModel Stub.remote0 |} /\
  max_new_tokens (base (OpenAIModel Stub.remote0)) = 20%Z /\
  raw_dataset (base (OpenAIModel Stub.remote0)) = None.
Proof.
  split; [reflexivity |].
  pose proof (LLMModel_init_invariant (Stub.remote None (Some 0%Q))
                {| facade_model := Some "gpt-4";
                   infer_model := OpenAIModel Stub.remote0 |} eq_refl)
    as (_ & _ & Hmax & Hraw & _).
  split; [exact Hmax | exact Hraw].
Defined.

(** X4 on the text 'hello', which the stub service answers with itself. *)
Lemma OpenAIModel_predict_first_choice_witness :
  ChatCompletion_create (trace Stub.w0) (openai_key Stub.remote0)
    (request_of Stub.remote0 "hello")
  = Ok {| choices := [ {| role := "assistant"; content := "hello" |} ] |} /\
  OpenAIModel_predict 1 Stub.remote0 "hello" Stub.w0
  = (Returns (Some "hello"),
     {| openai_api_key := Some "sk-test";
        trace := [ EChat (Some "sk-test") (Stub.request_for "hello") ] |}).
Proof.
  split; [reflexivity |].
  exact (OpenAIModel_predict_first_choice 0 Stub.remote0 "hello" Stub.w0
           {| role := "assistant"; content := "hello" |} [] eq_refl).
Defined.

(** X7 on the text 'down', on which the stub service raises. *)
Lemma OpenAIModel_predict_never_raises_witness :
  (forall h : list event, (0 <= random_random h)%Q) /\
  (forall d, (0 <= d)%Q -> time_sleep d = Ok tt) /\
  (0%Q <= sleep_time Stub.remote0)%num /\
  (exists out,
     fst (OpenAIModel_predict 1 Stub.remote0 "down" Stub.w0) = Returns out) /\
  (exists out,
     fst (predict 1 (OpenAIModel Stub.remote0) "down" Stub.w0) = Returns out).
Proof.
  split; [exact stub_random_nonneg |]. split; [exact stub_sleep_accepts |].
  split; [exact zero_nonneg |].
  exact (OpenAIModel_predict_never_raises 0 Stub.remote0 "down" Stub.w0
           stub_random_nonneg stub_sleep_accepts zero_nonneg).
Defined.

(** X8 at two remote configurations, [max_new_tokens] left out and 5. *)
Lemma OpenAIModel_predict_ignores_max_new_tokens_witness :
  OpenAIModel_init (Stub.remote None (Some 0%Q))
    = Ok (OpenAIModel Stub.remote0) /\
  OpenAIModel_init
    {| kw_model := Some "gpt-4"; kw_max_new_tokens := Some 5%Z;
       kw_model_dir := Some "/w"; kw_openai_key := Some "sk-test";
       kw_temperature := None; kw_sleep_time := Some (Finite 0%Q) |}
    = Ok (OpenAIModel
            {| rm_base := {| raw_dataset := None; model := Some "gpt-4";
                             max_new_tokens := 5 |};
               openai_key := Some "sk-test";
               temperature := 0%Q; sleep_time := 0%Q |}) /\
  predict 1 (OpenAIModel Stub.remote0) "hello" Stub.w0
  = predict 1
      (set_raw_dataset
         (OpenAIModel
            {| rm_base := {| raw_dataset := None; model := Some "gpt-4";
                             max_new_tokens := 5 |};
               openai_key := Some "sk-test";
               temperature := 0%Q; sleep_time := 0%Q |})
         (Some Stub.two_rows))
      "hello" Stub.w0.
Proof.
  split; [reflexivity |]. split; [reflexivity |].
  exact (OpenAIModel_predict_ignores_max_new_tokens
           (Stub.remote None (Some 0%Q))
           {| kw_model := Some "gpt-4"; kw_max_new_tokens := Some 5%Z;
              kw_model_dir := Some "/w"; kw_openai_key := Some "sk-test";
              kw_temperature := None; kw_sleep_time := Some (Finite 0%Q) |}
           _ _ (Some Stub.two_rows) 1 "hello" Stub.w0
           eq_refl eq_refl eq_refl eq_refl eq_refl eq_refl).
Defined.

(** X9 on a T5 adapter whose model raises. *)
Lemma local_predict_failure_propagates_witness :
  T5Model (StubMore.local_on Stub.broken)
    ∈ [ T5Model (StubMore.local_on Stub.broken);
        UL2Model (StubMore.local_on Stub.broken);
        LlamaModel (StubMore.local_on Stub.broken);
        VicunaModel (StubMore.local_on Stub.broken) ] /\
  generate Stub.broken [[1%Z]] 20
    = Raise (LibraryError "RuntimeError" "CUDA error") /\
  predict 1 (T5Model (StubMore.local_on Stub.broken)) "x" Stub.w0
  = (Raises (LibraryError "RuntimeError" "CUDA error"),
     {| openai_api_key := None; trace := [EPredict "x"] |}).
Proof.
  assert (T5Model (StubMore.local_on Stub.broken)
            ∈ [ T5Model (StubMore.local_on Stub.broken);
                UL2Model (StubMore.local_on Stub.broken);
                LlamaModel (StubMore.local_on Stub.broken);
                VicunaModel (StubMore.local_on Stub.broken) ]) as Hin
    by apply list_elem_of_here.
  split; [exact Hin |]. split; [reflexivity |].
  apply (local_predict_failure_propagates 1 (StubMore.local_on Stub.broken)
           _ "x" _ Stub.w0 Hin).
  right. right. exists [[1%Z]], [[1%Z]]. repeat split.
Defined.

(** X10 on an object whose model generates nothing. *)
Lemma local_predict_empty_generation_witness :
  input_ids (tokenizer (StubMore.local_on StubMore.silent)) "x"
    = Ok [[1%Z]] /\
  to_cuda [[1%Z]] = Ok [[1%Z]] /\
  generate StubMore.silent [[1%Z]] 20 = Ok [] /\
  batch_decode Stub.tok [] = Ok [] /\
  (exists msg,
     T5Model_predict (StubMore.local_on StubMore.silent) "x"
       = Raise (IndexError msg)) /\
  LlamaModel_predict (StubMore.local_on StubMore.silent) "x"
    = Raise (IndexError "list index out of range").
Proof.
  split; [reflexivity |]. split; [reflexivity |]. split; [reflexivity |].
  split; [reflexivity |].
  pose proof (local_predict_empty_generation
                (StubMore.local_on StubMore.silent) "x" [[1%Z]] [[1%Z]]
                eq_refl eq_refl eq_refl)
    as ((msg & H1 & _ & _) & _ & _ & H4 & _).
  split; [by exists msg | exact (H4 eq_refl)].
Defined.

(** X11 at three objects that differ in their model identifier only. *)
Lemma Vicuna_T5_UL2_predict_equal_witness :
  VicunaModel_predict (Stub.local_with "vicuna-7b") "hello"
    = T5Model_predict (Stub.local_with "google/flan-t5-large") "hello" /\
  VicunaModel_predict (Stub.local_with "vicuna-7b") "hello"
    = UL2Model_predict (Stub.local_with "google/flan-ul2") "hello".
Proof.
  pose proof (Vicuna_T5_UL2_predict_equal (Stub.local_with "vicuna-7b")
                (Stub.local_with "google/flan-t5-large")
                (Stub.local_with "google/flan-ul2") "hello"
                eq_refl eq_refl eq_refl eq_refl eq_refl eq_refl)
    as (H2 & H3 & _).
  split; [exact H2 | exact H3].
Defined.

(** X12 on a T5 adapter with three rows attached. *)
Lemma predict_dataset_local_witness :
  raw_dataset (base (T5Model (StubMore.local_on Stub.echo)))
    = Some [ ("a", "a"); ("bb", "b"); ("c", "c") ] /\
  process_input "P:" [ ("a", "a"); ("bb", "b"); ("c", "c") ]
    = Ok ([ "P:a"; "P:bb"; "P:c" ], [ "a"; "b"; "c" ]) /\
  predict_dataset 1 (T5Model (StubMore.local_on Stub.echo)) "P:" Stub.w0
  = (Returns 0,
     {| openai_api_key := None;
        trace := [ EPredict "P:a"; EPredict "P:bb"; EPredict "P:c" ] |}).
Proof.
  split; [reflexivity |]. split; [reflexivity |].
  apply (predict_dataset_local 1 (T5Model (StubMore.local_on Stub.echo))
           "P:" [ ("a", "a"); ("bb", "b"); ("c", "c") ]
           [ "P:a"; "P:bb"; "P:c" ] [ "a"; "b"; "c" ] (fun _ => "ok")
           Stub.w0 eq_refl eq_refl).
  intros t Ht.
  repeat (apply elem_of_cons in Ht as [-> | Ht]; [reflexivity |]).
  by apply elem_of_nil in Ht.
Defined.

(** X13 on a T5 adapter whose model raises on the second of three rows. *)
Lemma predict_dataset_local_stops_witness :
  process_input "P:" [ ("a", "a"); ("bb", "b"); ("c", "c") ]
    = Ok ([ "P:a" ] ++ "P:bb" :: [ "P:c" ], [ "a"; "b"; "c" ]) /\
  local_predict (T5Model (StubMore.local_on StubMore.picky)) "P:bb"
    = Some (Raise (LibraryError "RuntimeError" "CUDA error")) /\
  predict_dataset 1 (T5Model (StubMore.local_on StubMore.picky)) "P:" Stub.w0
  = (Raises (LibraryError "RuntimeError" "CUDA error"),
     {| openai_api_key := None;
        trace := [ EPredict "P:a"; EPredict "P:bb" ] |}).
Proof.
  split; [reflexivity |]. split; [reflexivity |].
  apply (predict_dataset_local_stops 1
           (T5Model (StubMore.local_on StubMore.picky))
           "P:" [ ("a", "a"); ("bb", "b"); ("c", "c") ]
           [ "P:a" ] [ "P:c" ] "P:bb" _ [ "a"; "b"; "c" ] (fun _ => "ok")
           Stub.w0 eq_refl eq_refl); [| reflexivity].
  intros t Ht.
  repeat (apply elem_of_cons in Ht as [-> | Ht]; [reflexivity |]).
  by apply elem_of_nil in Ht.
Defined.

(** X14 on the remote adapter with two rows, the second of which makes the
    stub service raise. *)
Lemma predict_dataset_remote_witness :
  (forall h : list event, (0 <= random_random h)%Q) /\
  (forall d, (0 <= d)%Q -> time_sleep d = Ok tt) /\
  (0%Q <= sleep_time StubMore.remote_scoring)%num /\
  raw_dataset (rm_base StubMore.remote_scoring) = Some Stub.two_rows /\
  process_input "" Stub.two_rows
    = Ok ([ "a"; "down" ], [ "a"; "x" ]) /\
  remote_predictions 1 StubMore.remote_scoring [ "a"; "down" ] Stub.w0
    = [ Some "a"; None ] /\
  exists w',
    predict_endings 1 (OpenAIModel StubMore.remote_scoring) [ "a"; "down" ]
      Stub.w0
      = [ Returns (Some "a"); Returns None ] /\
    length [ Some "a"; @None string ] = length [ "a"; "down" ] /\
    predict_dataset 1 (OpenAIModel StubMore.remote_scoring) "" Stub.w0
    = (to_ending (obind (process_pred (dataset_name Stub.two_rows)
                           [ Some "a"; None ])
                    (fun preds => eval Stub.two_rows preds [ "a"; "x" ])),
       w') /\
    predicted (trace w') = predicted (trace Stub.w0) ++ [ "a"; "down" ] /\
    count_events is_chat (trace w')
      = count_events is_chat (trace Stub.w0) + length [ "a"; "down" ].
Proof.
  split; [exact stub_random_nonneg |]. split; [exact stub_sleep_accepts |].
  split; [exact zero_nonneg |]. split; [reflexivity |].
  split; [reflexivity |]. split; [reflexivity |].
  exact (predict_dataset_remote 0 StubMore.remote_scoring "" Stub.two_rows
           [ "a"; "down" ] [ "a"; "x" ] Stub.w0
           stub_random_nonneg stub_sleep_accepts zero_nonneg
           eq_refl eq_refl).
Defined.

Example predict_dataset_remote_none :
  predict_loop 1 (OpenAIModel StubMore.remote_scoring) [ "a"; "down" ] []
    Stub.w0
  = (Returns [ Some "a"; None ],
     snd (predict_loop 1 (OpenAIModel StubMore.remote_scoring)
            [ "a"; "down" ] [] Stub.w0)).
Proof. reflexivity. Qed.


(** X18 at [--model gpt-4]. *)
Lemma main_never_remote_witness :
  one_of (kw_model (parse_args StubMore.gpt_args)) GPT_MODELS /\
  main 1 StubMore.gpt_args Stub.w0
  = (Raises (ValueError "openai_key is required for openai model!"),
     Stub.w0).
Proof.
  assert (one_of (kw_model (parse_args StubMore.gpt_args)) GPT_MODELS) as H
    by (apply py_in_true; reflexivity).
  split; [exact H |].
  exact (proj1 (main_never_remote 1 StubMore.gpt_args Stub.w0) H).
Defined.

Example main_no_args :
  main 1 StubMore.no_args Stub.w0
  = (Returns tt,
     {| openai_api_key := None;
        trace := [ EPredict "The quick brown fox jumps over the lazy dog";
                   EPrint "ok" ] |}).
Proof. reflexivity. Qed.

End FurtherOnStub.

Module FurtherOnMuteStub.

#[local] Instance mute_libraries : Libraries := StubMore.mute_libs.

(** X5 on a chat service that answers without a choice. *)
Lemma OpenAIModel_predict_no_choice_witness :
  (forall h : list event, (0 <= random_random h)%Q) /\
  (forall d, (0 <= d)%Q -> time_sleep d = Ok tt) /\
  (0%Q <= sleep_time StubMore.remote_mute)%num /\
  ChatCompletion_create (trace Stub.w0) (openai_key StubMore.remote_mute)
    (request_of StubMore.remote_mute "hello") = Ok {| choices := [] |} /\
  exists d,
    (sleep_time StubMore.remote_mute <= d)%num /\
    OpenAIModel_predict 1 StubMore.remote_mute "hello" Stub.w0
    = (Returns None,
       {| openai_api_key := openai_key StubMore.remote_mute;
          trace := trace Stub.w0
                     ++ [ EChat (openai_key StubMore.remote_mute)
                            (request_of StubMore.remote_mute "hello");
                          EPrint "list index out of range";
                          EPrint "Retrying...";
                          ESleep d ] |}).
Proof.
  assert (forall h : list event, (0 <= random_random h)%Q) as Hrand
    by (intros h; vm_compute; discriminate).
  assert (forall d, (0 <= d)%Q -> time_sleep d = Ok tt) as Hsleep.
  { intros d Hd. simpl. by rewrite (proj2 (Qle_bool_iff 0 d) Hd). }
  assert (0%Q <= sleep_time StubMore.remote_mute)%num as Hdelay
    by (vm_compute; discriminate).
  split; [exact Hrand |]. split; [exact Hsleep |]. split; [exact Hdelay |].
  split; [reflexivity |].
  exact (OpenAIModel_predict_no_choice 0 StubMore.remote_mute "hello" Stub.w0
           Hrand Hsleep Hdelay eq_refl).
Defined.

End FurtherOnMuteStub.
